(** * createPaymentIntent: the Stripe payment-intent handler of the viewer

    A shallow embedding of
    [apps/viewer/pages/api/integrations/stripe/createPaymentIntent.ts]:
    the currency table, the handler and [getStripeInfo], over

    - JavaScript numbers as IEEE-754 binary64 values ([spec_float] with
      precision 53 and maximal exponent 1024), with [Number], [Math.round],
      [isNaN], division and the number-to-string conversion of template
      literals;
    - JavaScript values (undefined, null, booleans, numbers, strings and
      plain objects) for what the gateway throws and what the handler sends;
    - the collaborators the file imports (the credential store, [decrypt],
      [parseVariables], the Stripe client, [JSON.parse]) as fields of a
      record, each of which may return or throw;
    - a log of the calls made to those collaborators.

    Strings are byte strings holding the UTF-8 encoding of the JavaScript
    string. The CORS middleware of line 38 is that of the cors package with
    its defaults, which ends a preflight itself and lets every other
    request through; the wrapper of line 111 is outside the sources and is
    modelled from the specification. *)

From Stdlib Require Import ZArith Lia Bool Ascii String List.
From Stdlib Require Import SpecFloat DecimalString.
From stdpp Require Import base option list strings gmap.
Import ListNotations.

#[local] Set Warnings "-register-all".
#[local] Open Scope string_scope.
#[local] Open Scope Z_scope.

(** ** JavaScript numbers *)

Module JS.

Abbreviation number := spec_float.

Definition prec : Z := 53.
Definition emax : Z := 1024.

Definition NaN : number := S754_nan.
Definition Infinity : number := S754_infinity false.

(** The Number value of a mathematical integer. *)
Definition of_Z (z : Z) : number := binary_normalize prec emax z 0 false.

(** The Number value nearest to [num / den] (ties to even), with the sign
    [neg]; [num] and [den] are positive. *)
Definition nearest (neg : bool) (num den : Z) : number :=
  let '(q, e, l) := SFdiv_core_binary prec emax num 0 den 0 in
  binary_round_aux prec emax neg q e l.

Definition mul : number -> number -> number := SFmul prec emax.
Definition div : number -> number -> number := SFdiv prec emax.

Definition isNaN (x : number) : bool :=
  match x with
  | S754_nan => true
  | _ => false
  end.

Definition number_eqb (x y : number) : bool :=
  match x, y with
  | S754_zero a, S754_zero b => Bool.eqb a b
  | S754_infinity a, S754_infinity b => Bool.eqb a b
  | S754_nan, S754_nan => true
  | S754_finite a m e, S754_finite b n f => Bool.eqb a b && Pos.eqb m n && Z.eqb e f
  | _, _ => false
  end.

(** [Math.round]: the integer nearest to x, the larger one on a tie; -0 for
    -0.5 <= x < 0, and NaN, the infinities and the zeros unchanged. A finite
    value with a non-negative exponent is an integer already. *)
Definition round_half_up (s : bool) (m : positive) (e : Z) : Z :=
  (2 * cond_Zopp s (Zpos m) + 2 ^ (- e)) / 2 ^ (1 - e).

Definition Math_round (x : number) : number :=
  match x with
  | S754_finite s m e =>
      if 0 <=? e then x
      else
        let n := round_half_up s m e in
        if n =? 0 then S754_zero s else of_Z n
  | _ => x
  end.

(** The mathematical integer a number is, when it is one. *)
Definition integer_value (x : number) : option Z :=
  match x with
  | S754_zero _ => Some 0
  | S754_finite s m e =>
      if 0 <=? e then Some (cond_Zopp s (Zpos m * 2 ^ e))
      else if Zpos m mod 2 ^ (- e) =? 0 then Some (cond_Zopp s (Zpos m / 2 ^ (- e)))
      else None
  | _ => None
  end.

(** *** Number(string): the StringNumericLiteral grammar *)

Definition byte_string (l : list nat) : string :=
  string_of_list_ascii (map ascii_of_nat l).

(** WhiteSpace and LineTerminator code points, UTF-8 encoded: TAB, LF, VT,
    FF, CR, SP, U+00A0, U+1680, U+2000 to U+200A, U+2028, U+2029, U+202F,
    U+205F, U+3000 and U+FEFF. *)
Definition white_space : list string :=
  map byte_string
    [ [9%nat]; [10%nat]; [11%nat]; [12%nat]; [13%nat]; [32%nat];
      [194; 160]%nat; [225; 154; 128]%nat;
      [226; 128; 128]%nat; [226; 128; 129]%nat; [226; 128; 130]%nat;
      [226; 128; 131]%nat; [226; 128; 132]%nat; [226; 128; 133]%nat;
      [226; 128; 134]%nat; [226; 128; 135]%nat; [226; 128; 136]%nat;
      [226; 128; 137]%nat; [226; 128; 138]%nat;
      [226; 128; 168]%nat; [226; 128; 169]%nat; [226; 128; 175]%nat;
      [226; 129; 159]%nat; [227; 128; 128]%nat; [239; 187; 191]%nat ].

Fixpoint strip_prefix (p s : string) : option string :=
  match p, s with
  | EmptyString, _ => Some s
  | String a p', String b s' => if Ascii.eqb a b then strip_prefix p' s' else None
  | String _ _, EmptyString => None
  end.

Fixpoint strip_any (ps : list string) (s : string) : option string :=
  match ps with
  | [] => None
  | p :: ps' =>
      match strip_prefix p s with
      | Some r => Some r
      | None => strip_any ps' s
      end
  end.

Fixpoint drop_white_space (fuel : nat) (s : string) : string :=
  match fuel with
  | O => s
  | S fuel' =>
      match strip_any white_space s with
      | Some r => drop_white_space fuel' r
      | None => s
      end
  end.

Definition trim_start (s : string) : string :=
  drop_white_space (String.length s) s.

Definition only_white_space (s : string) : bool :=
  String.eqb (trim_start s) "".

Definition digit_value (radix : Z) (c : ascii) : option Z :=
  let n := Z.of_nat (nat_of_ascii c) in
  let v :=
    if (48 <=? n) && (n <=? 57) then Some (n - 48)
    else if (97 <=? n) && (n <=? 122) then Some (n - 87)
    else if (65 <=? n) && (n <=? 90) then Some (n - 55)
    else None in
  match v with
  | Some d => if d <? radix then Some d else None
  | None => None
  end.

(** Reads the longest run of digits: the accumulated value, the number of
    digits read and the rest of the string. *)
Fixpoint read_digits (radix : Z) (s : string) (acc n : Z) : Z * Z * string :=
  match s with
  | String c r =>
      match digit_value radix c with
      | Some d => read_digits radix r (radix * acc + d) (n + 1)
      | None => (acc, n, s)
      end
  | EmptyString => (acc, n, s)
  end.

Definition read_sign (s : string) : bool * string :=
  match s with
  | String "-" r => (true, r)
  | String "+" r => (false, r)
  | _ => (false, s)
  end.

(** The Number value of [m * 10 ^ k], [m >= 0], with the sign [neg]. *)
Definition of_decimal (neg : bool) (m k : Z) : number :=
  if m =? 0 then S754_zero neg
  else if 0 <=? k then nearest neg (m * 10 ^ k) 1
  else nearest neg m (10 ^ (- k)).

(** 0x, 0o and 0b literals: no sign, at least one digit. *)
Definition non_decimal (s : string) : option number :=
  match s with
  | String "0" (String c r) =>
      let radix :=
        if Ascii.eqb c "x" || Ascii.eqb c "X" then Some 16
        else if Ascii.eqb c "o" || Ascii.eqb c "O" then Some 8
        else if Ascii.eqb c "b" || Ascii.eqb c "B" then Some 2
        else None in
      match radix with
      | Some rx =>
          let '(v, n, rest) := read_digits rx r 0 0 in
          if (0 <? n) && only_white_space rest then Some (of_decimal false v 0)
          else Some NaN
      | None => None
      end
  | _ => None
  end.

Definition exponent_part (s : string) : option (Z * string) :=
  match s with
  | String c r =>
      if Ascii.eqb c "e" || Ascii.eqb c "E" then
        let '(neg, r') := read_sign r in
        let '(x, n, rest) := read_digits 10 r' 0 0 in
        if 0 <? n then Some (cond_Zopp neg x, rest) else None
      else Some (0, s)
  | EmptyString => Some (0, s)
  end.

Definition decimal (s : string) : number :=
  let '(neg, s1) := read_sign s in
  match strip_prefix "Infinity" s1 with
  | Some rest => if only_white_space rest then S754_infinity neg else NaN
  | None =>
      let '(a, na, s2) := read_digits 10 s1 0 0 in
      let '(m, nf, s3) :=
        match s2 with
        | String "." r => read_digits 10 r a 0
        | _ => (a, 0, s2)
        end in
      if na + nf =? 0 then NaN
      else
        match exponent_part s3 with
        | Some (x, rest) =>
            if only_white_space rest then of_decimal neg m (x - nf) else NaN
        | None => NaN
        end
  end.

(** [Number(s)] for a string [s]: +0 for an empty or blank string, NaN for
    a string outside the grammar. *)
Definition Number (str : string) : number :=
  let s := trim_start str in
  if String.eqb s "" then S754_zero false
  else
    match non_decimal s with
    | Some x => x
    | None => decimal s
    end.

(** *** Number::toString: the shortest decimal that reads back as x *)

Definition decimal_string (z : Z) : string :=
  NilZero.string_of_uint (N.to_uint (Z.to_N z)).

Fixpoint zeros (n : nat) : string :=
  match n with
  | O => ""
  | S n' => String "0" (zeros n')
  end.

Fixpoint count_digits (fuel : nat) (z : Z) : Z :=
  match fuel with
  | O => 1
  | S fuel' => if z <? 10 then 1 else 1 + count_digits fuel' (z / 10)
  end.

Fixpoint leading_zeros (fuel : nat) (num den n : Z) : Z :=
  match fuel with
  | O => n
  | S fuel' => if den <=? 10 * num then n else leading_zeros fuel' (10 * num) den (n - 1)
  end.

(** The n with 10 ^ (n - 1) <= num / den < 10 ^ n. *)
Definition decimal_exponent (num den : Z) : Z :=
  if den <=? num then
    let q := num / den in
    count_digits (S (Z.to_nat (Z.log2 q))) q
  else leading_zeros (S (Z.to_nat (Z.log2 den))) num den 0.

(** The candidates with k digits for num / den of decimal exponent n: the
    two integers s around (num / den) / 10 ^ (n - k), each kept when
    s * 10 ^ (n - k) reads back as x; of two that do, the nearer one, the
    even one on a tie. *)
Definition digits_of_length (x : number) (num den n k : Z) : option (Z * Z) :=
  let p := n - k in
  let a := if 0 <=? p then num else num * 10 ^ (- p) in
  let b := if 0 <=? p then den * 10 ^ p else den in
  let lo := a / b in
  let r := a mod b in
  let hi := lo + 1 in
  let reads_back s :=
    number_eqb (if 0 <=? p then nearest false (s * 10 ^ p) 1
                else nearest false s (10 ^ (- p))) x in
  let pick s := if s =? 10 ^ k then Some (10 ^ (k - 1), n + 1) else Some (s, n) in
  match reads_back lo, reads_back hi with
  | true, true =>
      if 2 * r <? b then pick lo
      else if b <? 2 * r then pick hi
      else if Z.even lo then pick lo else pick hi
  | true, false => pick lo
  | false, true => pick hi
  | false, false => None
  end.

Fixpoint shortest_digits (fuel : nat) (x : number) (num den n k : Z) : Z * Z * Z :=
  match fuel with
  | O => (num * 10 ^ (k - n) / den, n, k)
  | S fuel' =>
      match digits_of_length x num den n k with
      | Some (s, n') => (s, n', k)
      | None => shortest_digits fuel' x num den n (k + 1)
      end
  end.

Definition format_digits (s n k : Z) : string :=
  let ds := decimal_string s in
  if (k <=? n) && (n <=? 21) then ds +:+ zeros (Z.to_nat (n - k))
  else if (0 <? n) && (n <=? 21) then
    substring 0 (Z.to_nat n) ds +:+ "." +:+ substring (Z.to_nat n) (Z.to_nat (k - n)) ds
  else if (-6 <? n) && (n <=? 0) then "0." +:+ zeros (Z.to_nat (- n)) +:+ ds
  else
    let e := n - 1 in
    let exponent := (if e <? 0 then "e-" else "e+") +:+ decimal_string (Z.abs e) in
    if k =? 1 then ds +:+ exponent
    else substring 0 1 ds +:+ "." +:+ substring 1 (Z.to_nat (k - 1)) ds +:+ exponent.

Definition positive_toString (m : positive) (e : Z) : string :=
  let num := if 0 <=? e then Zpos m * 2 ^ e else Zpos m in
  let den := if 0 <=? e then 1 else 2 ^ (- e) in
  let n := decimal_exponent num den in
  let '(s, n', k) := shortest_digits 20 (S754_finite false m e) num den n 1 in
  format_digits s n' k.

Definition Number_toString (x : number) : string :=
  match x with
  | S754_nan => "NaN"
  | S754_zero _ => "0"
  | S754_infinity s => if s then "-Infinity" else "Infinity"
  | S754_finite s m e => (if s then "-" else "") +:+ positive_toString m e
  end.

(** *** String.prototype.toUpperCase, as far as an ASCII word can tell *)

Definition upper (c : ascii) : ascii :=
  let n := Z.of_nat (nat_of_ascii c) in
  if (97 <=? n) && (n <=? 122) then ascii_of_nat (nat_of_ascii c - 32) else c.

(** The letters a to z go to A to Z, and so do the two other characters
    whose upper case is an ASCII letter: the dotless i (U+0131, the bytes
    196 177) and the long s (U+017F, the bytes 197 191). Every other
    character is left as it is; its upper case has no ASCII letter in it,
    so that the comparison of the result with an ASCII word is that of
    JavaScript. *)
Fixpoint toUpperCase (s : string) : string :=
  match s with
  | EmptyString => EmptyString
  | String c rest =>
      match rest with
      | String c' rest' =>
          if Ascii.eqb c (ascii_of_nat 196) && Ascii.eqb c' (ascii_of_nat 177)
          then String "I" (toUpperCase rest')
          else if Ascii.eqb c (ascii_of_nat 197) && Ascii.eqb c' (ascii_of_nat 191)
          then String "S" (toUpperCase rest')
          else String (upper c) (toUpperCase rest)
      | EmptyString => String (upper c) EmptyString
      end
  end.

End JS.

Arguments JS.Number : simpl never.
Arguments JS.Number_toString : simpl never.
Arguments JS.Math_round : simpl never.
Arguments JS.mul : simpl never.
Arguments JS.div : simpl never.
Arguments JS.of_Z : simpl never.

(** ** JavaScript values, property access and abrupt completion *)

Inductive value : Type :=
  | VUndefined
  | VNull
  | VBoolean (b : bool)
  | VNumber (x : JS.number)
  | VString (s : string)
  | VObject (props : list (string * value)).

(** An evaluation either returns or throws a value. *)
Inductive completion (A : Type) : Type :=
  | Normal (a : A)
  | Throw (e : value).

Arguments Normal {A} a.
Arguments Throw {A} e.

#[global] Instance completion_ret : MRet completion :=
  fun A (a : A) => Normal a.

#[global] Instance completion_bind : MBind completion :=
  fun A B (f : A -> completion B) (r : completion A) =>
    match r with
    | Normal a => f a
    | Throw e => Throw e
    end.

Fixpoint own_property (k : string) (props : list (string * value)) : option value :=
  match props with
  | [] => None
  | (k', v) :: rest => if String.eqb k k' then Some v else own_property k rest
  end.

Definition TypeError (message : string) : value :=
  VObject [("name", VString "TypeError"); ("message", VString message)].

(** [k in v]: a TypeError when [v] is not an object. *)
Definition HasProperty (k : string) (v : value) : completion bool :=
  match v with
  | VObject props => Normal (bool_decide (is_Some (own_property k props)))
  | _ => Throw (TypeError "Cannot use 'in' operator to search for a key in a primitive")
  end.

(** [v.k] where [v] is neither undefined nor null, for the property names
    read in this file (raw, statusCode, type, param, message), none of
    which a string, a number or a boolean has: undefined when the property
    is missing. *)
Definition property (v : value) (k : string) : value :=
  match v with
  | VObject props => default VUndefined (own_property k props)
  | _ => VUndefined
  end.

(** [v.k]: a TypeError on undefined and null. *)
Definition Get (v : value) (k : string) : completion value :=
  match v with
  | VUndefined | VNull => Throw (TypeError "Cannot read properties of undefined or null")
  | _ => Normal (property v k)
  end.

(** The string a template literal puts in for a value. *)
Definition ToString (v : value) : string :=
  match v with
  | VUndefined => "undefined"
  | VNull => "null"
  | VBoolean b => if b then "true" else "false"
  | VNumber x => JS.Number_toString x
  | VString s => s
  | VObject _ => "[object Object]"
  end.

(** Truthiness of a [string | undefined]: a non-empty string. *)
Definition truthy (s : option string) : bool :=
  match s with
  | Some s' => negb (String.eqb s' "")
  | None => false
  end.

Definition string_or_undefined (s : option string) : value :=
  match s with
  | Some s' => VString s'
  | None => VUndefined
  end.

Definition string_or_null (s : option string) : value :=
  match s with
  | Some s' => VString s'
  | None => VNull
  end.

(** ** The data of the request *)

(** One environment entry of the credential set: [{secretKey, publicKey}]. *)
Record StripeKeys : Type := {
  secretKey : option string;
  publicKey : option string
}.

(** The decrypted credential set. The handler reads [live] without a
    guard and [test] behind [?.]; either entry and either key may be
    missing in what [decrypt] hands back. *)
Record StripeCredentialsData : Type := {
  live : option StripeKeys;
  test : option StripeKeys
}.

(** A row of the credentials table: the encrypted blob and its
    initialization vector. *)
Record Credentials : Type := {
  data : string;
  iv : string
}.

Record AdditionalInformation : Type := {
  email : option string
}.

Record PaymentInputOptions : Type := {
  credentialsId : option string;
  amount : option string;
  currency : string;
  additionalInformation : option AdditionalInformation
}.

Record VariableBinding : Type := {
  name : string;
  binding : option string
}.

Record Body : Type := {
  inputOptions : PaymentInputOptions;
  isPreview : bool;
  variables : list VariableBinding
}.

(** [req.body] is either the raw JSON text or the decoded object. *)
Inductive RequestBody : Type :=
  | RawBody (text : string)
  | ParsedBody (b : Body).

Record NextApiRequest : Type := {
  method : string;
  body : RequestBody
}.

(** The argument of [stripe.paymentIntents.create]; [receipt_email] is
    [None] when the property is undefined. *)
Record PaymentIntentCreateParams : Type := {
  params_amount : JS.number;
  params_currency : string;
  receipt_email : option string;
  automatic_payment_methods_enabled : bool
}.

Record PaymentIntent : Type := {
  client_secret : option string
}.

(** ** Collaborators and the log of their calls *)

(** What the file imports and calls: [JSON.parse], prisma's
    [credentials.findUnique], [decrypt], [parseVariables] and the Stripe
    client's [paymentIntents.create], which is given the secret key the
    client was built with. [new Stripe] itself keeps the key, calls nobody
    and does not throw.

    [decrypt] hands back whatever the stored text holds, cast to the
    credential set: [None] stands for a value that is falsy (null, false,
    0, the empty string), [Some] for any other value, read as a credential
    set in which the entries it does not have are missing. *)
Record Collaborators : Type := {
  JSON_parse : string -> completion Body;
  findUnique : string -> completion (option Credentials);
  decrypt : string -> string -> completion (option StripeCredentialsData);
  parseVariables : list VariableBinding -> option string -> string;
  paymentIntents_create : option string -> PaymentIntentCreateParams -> completion PaymentIntent
}.

Inductive call : Type :=
  | CallJSONParse (text : string)
  | CallFindUnique (id : string)
  | CallDecrypt (data iv : string)
  | CallNewStripe (key : option string)
  | CallPaymentIntentsCreate (key : option string) (params : PaymentIntentCreateParams).

(** A computation of the handler: from the calls made so far to a
    completion and the calls made by then. *)
Definition M (A : Type) : Type := list call -> completion A * list call.

#[global] Instance M_ret : MRet M :=
  fun A (a : A) log => (Normal a, log).

#[global] Instance M_bind : MBind M :=
  fun A B (f : A -> M B) (m : M A) log =>
    match m log with
    | (Normal a, log') => f a log'
    | (Throw e, log') => (Throw e, log')
    end.

(** Calls a collaborator: logs the call and completes as it does. *)
Definition perform {A : Type} (c : call) (r : completion A) : M A :=
  fun log => (r, (log ++ [c])%list).

Definition lift {A : Type} (r : completion A) : M A :=
  fun log => (r, log).

Definition try_catch {A : Type} (m : M A) (h : value -> M A) : M A :=
  fun log =>
    match m log with
    | (Normal a, log') => (Normal a, log')
    | (Throw e, log') => h e log'
    end.

Definition run {A : Type} (m : M A) : completion A * list call := m [].

(** ** Replies *)

(** What the handler sends: through one of the helpers of the utils
    package, or through [res.status(code).send(body)]. [preflight] is the
    one response that is not the handler's: the CORS middleware of line 38
    has answered the request itself and does not call back, so that the
    handler stays at its await and sends nothing. *)
Inductive reply : Type :=
  | forbidden
  | badRequest
  | methodNotAllowed
  | send (status : value) (payload : value)
  | preflight.

Definition status_code (n : Z) : value := VNumber (JS.of_Z n).

(** Modelled from the spec: the helpers [forbidden] and [badRequest] of the
    utils package are not among the sources; section 6 of the spec gives
    them HTTP 403 and HTTP 400. [methodNotAllowed], on which the spec is
    silent, has the status its name stands for, and [preflight] the 204 of
    the cors package. *)
Definition statusCode (r : reply) : value :=
  match r with
  | forbidden => status_code 403
  | badRequest => status_code 400
  | methodNotAllowed => status_code 405
  | send status _ => status
  | preflight => status_code 204
  end.

(** ** The source file *)

(** Lines 19 to 35. *)
Definition currency_table : list (string * string) :=
  [ ("USD", "$"); ("EUR", "€"); ("CRC", "₡"); ("GBP", "£"); ("ILS", "₪");
    ("INR", "₹"); ("JPY", "¥"); ("KRW", "₩"); ("NGN", "₦"); ("PHP", "₱");
    ("PLN", "zł"); ("PYG", "₲"); ("THB", "฿"); ("UAH", "₴"); ("VND", "₫") ].

(** The own properties of the object. *)
Definition currencySymbols : gmap string string := list_to_map currency_table.

(** What the object inherits: the members of [Object.prototype], each with
    the text a template literal prints for it on V8, the engine the
    handler runs on. They are functions, but for [__proto__], which reads
    as the prototype itself. *)
Definition Object_prototype : list (string * string) :=
  [ ("constructor", "function Object() { [native code] }");
    ("__defineGetter__", "function __defineGetter__() { [native code] }");
    ("__defineSetter__", "function __defineSetter__() { [native code] }");
    ("hasOwnProperty", "function hasOwnProperty() { [native code] }");
    ("__lookupGetter__", "function __lookupGetter__() { [native code] }");
    ("__lookupSetter__", "function __lookupSetter__() { [native code] }");
    ("isPrototypeOf", "function isPrototypeOf() { [native code] }");
    ("propertyIsEnumerable", "function propertyIsEnumerable() { [native code] }");
    ("toString", "function toString() { [native code] }");
    ("valueOf", "function valueOf() { [native code] }");
    ("__proto__", "[object Object]");
    ("toLocaleString", "function toLocaleString() { [native code] }") ].

Fixpoint assoc (k : string) (l : list (string * string)) : option string :=
  match l with
  | [] => None
  | (k', v) :: rest => if String.eqb k k' then Some v else assoc k rest
  end.

(** [currencySymbols[code]] as line 81 prints it: the symbol of an own
    property, else the inherited member of that name, else nothing
    (undefined, for which [??] takes its right-hand side). *)
Definition currencySymbols_at (code : string) : option string :=
  match currencySymbols !! code with
  | Some symbol => Some symbol
  | None => assoc code Object_prototype
  end.

Definition getStripeInfo (w : Collaborators) (id : string) : M (option StripeCredentialsData) :=
  credentials ← perform (CallFindUnique id) (findUnique w id);
  match credentials with
  | None => mret None
  | Some c => perform (CallDecrypt (data c) (iv c)) (decrypt w (data c) (iv c))
  end.

(** [stripeKeys?.test?.secretKey] and [stripeKeys.test?.publicKey]. *)
Definition test_secretKey (stripeKeys : StripeCredentialsData) : option string :=
  test stripeKeys ≫= secretKey.

Definition test_publicKey (stripeKeys : StripeCredentialsData) : option string :=
  test stripeKeys ≫= publicKey.

(** [stripeKeys.live.secretKey] and [stripeKeys.live.publicKey]: a
    TypeError when there is no live entry. *)
Definition live_key (field : StripeKeys -> option string) (stripeKeys : StripeCredentialsData)
  : completion (option string) :=
  match live stripeKeys with
  | Some l => Normal (field l)
  | None => Throw (TypeError "Cannot read properties of undefined")
  end.

(** Lines 50 to 53: the first argument of [new Stripe]. *)
Definition secret_key_argument (preview : bool) (stripeKeys : StripeCredentialsData)
  : completion (option string) :=
  if preview && truthy (test_secretKey stripeKeys) then Normal (test_secretKey stripeKeys)
  else live_key secretKey stripeKeys.

(** Lines 76 to 79: the public key of the success response. *)
Definition public_key_field (preview : bool) (stripeKeys : StripeCredentialsData)
  : completion (option string) :=
  if preview && truthy (test_publicKey stripeKeys) then Normal (test_publicKey stripeKeys)
  else live_key publicKey stripeKeys.

(** Lines 56 to 58. *)
Definition minor_units (interpolated : string) : JS.number :=
  JS.Math_round (JS.mul (JS.Number interpolated) (JS.of_Z 100)).

(** Lines 80 to 82. *)
Definition amountLabel (amount : JS.number) (code : string) : string :=
  JS.Number_toString (JS.div amount (JS.of_Z 100))
  +:+ default (" " +:+ code) (currencySymbols_at code).

(** Lines 84 to 95: the catch block. A throw in it leaves the handler. *)
Definition on_error (error : value) : completion reply :=
  has_raw ← HasProperty "raw" error;
  if has_raw : bool then
    raw ← Get error "raw";
    status ← Get raw "statusCode";
    type ← Get raw "type";
    param ← Get raw "param";
    message ← Get raw "message";
    mret (send status
            (VObject
               [("error",
                 VObject
                   [("name", VString (ToString type +:+ " " +:+ ToString param));
                    ("message", message)])]))
  else mret (send (status_code 500) (VObject [("error", error)])).

Definition request_body (w : Collaborators) (req : NextApiRequest) : M Body :=
  match body req with
  | RawBody text => perform (CallJSONParse text) (JSON_parse w text)
  | ParsedBody b => mret b
  end.

(** Lines 56 to 58 and 61 to 63: the two interpolated texts. *)
Definition interpolated_amount (w : Collaborators) (b : Body) : string :=
  parseVariables w (variables b) (amount (inputOptions b)).

Definition receiptEmail (w : Collaborators) (b : Body) : string :=
  parseVariables w (variables b) (additionalInformation (inputOptions b) ≫= email).

(** Lines 65 to 72: the argument of [paymentIntents.create]. *)
Definition create_params (w : Collaborators) (b : Body) : PaymentIntentCreateParams :=
  {| params_amount := minor_units (interpolated_amount w b);
     params_currency := currency (inputOptions b);
     receipt_email := if String.eqb (receiptEmail w b) "" then None else Some (receiptEmail w b);
     automatic_payment_methods_enabled := true |}.

(** Lines 74 to 83: [res.send] with the default status. *)
Definition success_response (paymentIntent : PaymentIntent) (pk : option string)
    (amount : JS.number) (code : string) : reply :=
  send (status_code 200)
    (VObject
       [("clientSecret", string_or_null (client_secret paymentIntent));
        ("publicKey", string_or_undefined pk);
        ("amountLabel", VString (amountLabel amount code))]).

(** Lines 50 to 96: from the Stripe client to the reply. *)
Definition create_payment_intent (w : Collaborators) (b : Body) (stripeKeys : StripeCredentialsData)
  : M reply :=
  key ← lift (secret_key_argument (isPreview b) stripeKeys);
  stripe ← perform (CallNewStripe key) (Normal key);
  let params := create_params w b in
  if JS.isNaN (params_amount params) then mret badRequest
  else
    try_catch
      (paymentIntent ←
         perform (CallPaymentIntentsCreate stripe params) (paymentIntents_create w stripe params);
       pk ← lift (public_key_field (isPreview b) stripeKeys);
       mret (success_response paymentIntent pk (params_amount params) (currency (inputOptions b))))
      (fun error => lift (on_error error)).

(** Lines 17 and 38: [initMiddleware(Cors())], the middleware of the cors
    package with its defaults. It takes a request whose method reads
    OPTIONS in upper case for a preflight, which it answers itself without
    calling back; on any other request it sets headers, which the model
    leaves out, and calls back. Neither package is among the sources. *)
Definition cors (req : NextApiRequest) : bool :=
  negb (String.eqb (JS.toUpperCase (method req)) "OPTIONS").

Definition handler (w : Collaborators) (req : NextApiRequest) : M reply :=
  if cors req then
    if String.eqb (method req) "POST" then
      b ← request_body w req;
      match credentialsId (inputOptions b) with
      | None => mret forbidden
      | Some id =>
          if String.eqb id "" then mret forbidden
          else
            stripeKeys ← getStripeInfo w id;
            match stripeKeys with
            | None => mret forbidden
            | Some stripeKeys => create_payment_intent w b stripeKeys
            end
      end
    else mret methodNotAllowed
  else mret preflight.

(** ** Stages of a request *)

(** The calls made by the time the credential set is decrypted. *)
Definition resolved_log (log0 : list call) (id : string) (c : Credentials) : list call :=
  (log0 ++ [CallFindUnique id; CallDecrypt (data c) (iv c)])%list.

(** [resolves w req b stripeKeys log]: the request gets past line 49. It is
    a POST whose body is [b], its credential id is a non-empty string, the
    record of that id is found and decrypts to [stripeKeys], and [log] are
    the calls made so far. *)
Inductive resolves (w : Collaborators) (req : NextApiRequest) (b : Body)
    (stripeKeys : StripeCredentialsData) (log : list call) : Prop :=
  | resolves_intro (log0 : list call) (id : string) (c : Credentials) :
      method req = "POST" ->
      run (request_body w req) = (Normal b, log0) ->
      credentialsId (inputOptions b) = Some id ->
      id <> "" ->
      findUnique w id = Normal (Some c) ->
      decrypt w (data c) (iv c) = Normal (Some stripeKeys) ->
      log = resolved_log log0 id c ->
      resolves w req b stripeKeys log.

(** The calls made by the time the gateway has answered. *)
Definition gateway_log (w : Collaborators) (b : Body) (key : option string) (log : list call)
  : list call :=
  (log ++ [CallNewStripe key; CallPaymentIntentsCreate key (create_params w b)])%list.

(** n - 1/2 <= x < n + 1/2 for x = (-1)^s * m * 2^e with e < 0, cleared of
    denominators: n is the integer nearest to x, the larger one on a tie. *)
Definition nearest_half_up (n : Z) (s : bool) (m : positive) (e : Z) : Prop :=
  (2 * n - 1) * 2 ^ (- e) <= 2 * cond_Zopp s (Zpos m)
  /\ 2 * cond_Zopp s (Zpos m) < (2 * n + 1) * 2 ^ (- e).

(** [payload.error.name] of a reply sent with [res.send]. *)
Definition error_name (r : reply) : completion value :=
  match r with
  | send _ payload => error ← Get payload "error"; Get error "name"
  | _ => Normal VUndefined
  end.

(** The amount as the specification words it: the text read as a decimal
    numeral (a sign, digits, a fraction), its value taken exactly,
    multiplied by 100 and rounded to the nearest integer, a half going up.
    [None] when the text is no such numeral. *)
Definition decimal_minor_units (text : string) : option Z :=
  let '(neg, s1) := JS.read_sign text in
  let '(a, na, s2) := JS.read_digits 10 s1 0 0 in
  let '(m, nf, s3) :=
    match s2 with
    | String "." r => JS.read_digits 10 r a 0
    | _ => (a, 0, s2)
    end in
  if (na + nf =? 0) || negb (String.eqb s3 "") then None
  else Some ((2 * (100 * cond_Zopp neg m) + 10 ^ nf) / (2 * 10 ^ nf)).

(** ** The default export *)

(** What the route answers: a reply of the handler, or the answer to what
    left the handler uncaught. *)
Inductive response : Type :=
  | Replied (r : reply)
  | InternalError (e : value).

(** Line 111: [withSentry(handler)]. Modelled from the spec: [withSentry]
    and the framework that calls the export are not among the sources;
    section 7 of the spec puts every failure that is no structured
    provider error, a decryption failure and an unexpected exception by
    name, in the internal bucket, HTTP 500. So what leaves the handler
    uncaught is answered with the status 500, and a reply of the handler
    stands as it is. *)
Definition withSentry (h : NextApiRequest -> M reply) (req : NextApiRequest)
  : response * list call :=
  match run (h req) with
  | (Normal r, log) => (Replied r, log)
  | (Throw e, log) => (InternalError e, log)
  end.

Definition responseStatus (r : response) : value :=
  match r with
  | Replied r' => statusCode r'
  | InternalError _ => status_code 500
  end.

Definition default_export (w : Collaborators) : NextApiRequest -> response * list call :=
  withSentry (handler w).

(** ** Sample collaborators and requests *)

Definition sample_row : Credentials := {| data := "c29tZSBjaXBoZXJ0ZXh0"; iv := "0f1e2d3c" |}.

(** A small interpolator: a text that is the placeholder of a variable of
    the request, its name in double braces, is replaced by the value of
    that variable (the empty string when it has none); any other text is
    left as it is, and undefined gives the empty string. *)
Definition substitute (vars : list VariableBinding) (text : option string) : string :=
  match text with
  | None => ""
  | Some t =>
      match List.find (fun v => String.eqb t ("{{" +:+ name v +:+ "}}")) vars with
      | Some v => default "" (binding v)
      | None => t
      end
  end.

(** A store with the one record cred_1, a [decrypt] that completes as
    [stored], the interpolator [substitute] and a body that is never raw
    JSON. *)
Definition sample_store (stored : completion (option StripeCredentialsData))
    (gateway : option string -> PaymentIntentCreateParams -> completion PaymentIntent)
  : Collaborators :=
  {| JSON_parse := fun _ => Throw (VObject [("name", VString "SyntaxError")]);
     findUnique := fun id => Normal (if String.eqb id "cred_1" then Some sample_row else None);
     decrypt := fun _ _ => stored;
     parseVariables := substitute;
     paymentIntents_create := gateway |}.

(** The same with a [decrypt] that hands back a credential set when it
    does not throw. *)
Definition sample_world (stored : completion StripeCredentialsData)
    (gateway : option string -> PaymentIntentCreateParams -> completion PaymentIntent)
  : Collaborators :=
  sample_store (stored ≫= fun stripeKeys => Normal (Some stripeKeys)) gateway.

Definition sample_body (id : option string) (preview : bool) (amount_text currency_code : string)
    (receipt : option string) : Body :=
  {| inputOptions :=
       {| credentialsId := id;
          amount := Some amount_text;
          currency := currency_code;
          additionalInformation := Some {| email := receipt |} |};
     isPreview := preview;
     variables := [] |}.

Definition sample_request (id : option string) (preview : bool) (amount_text currency_code : string)
    (receipt : option string) : NextApiRequest :=
  {| method := "POST";
     body := ParsedBody (sample_body id preview amount_text currency_code receipt) |}.

(** A request whose amount and receipt email are templates over its
    variables. *)
Definition templated_body (amount_text : string) (receipt : option string)
    (vars : list VariableBinding) : Body :=
  {| inputOptions :=
       {| credentialsId := Some "cred_1";
          amount := Some amount_text;
          currency := "USD";
          additionalInformation := Some {| email := receipt |} |};
     isPreview := false;
     variables := vars |}.

Definition templated_request (amount_text : string) (receipt : option string)
    (vars : list VariableBinding) : NextApiRequest :=
  {| method := "POST"; body := ParsedBody (templated_body amount_text receipt vars) |}.

Definition sample_log : list call :=
  [CallFindUnique "cred_1"; CallDecrypt (data sample_row) (iv sample_row)].

Definition both_keys : StripeCredentialsData :=
  {| live := Some {| secretKey := Some "sk_live_51"; publicKey := Some "pk_live_51" |};
     test := Some {| secretKey := Some "sk_test_51"; publicKey := None |} |}.

(** Both entries with both keys. *)
Definition all_keys : StripeCredentialsData :=
  {| live := Some {| secretKey := Some "sk_live_51"; publicKey := Some "pk_live_51" |};
     test := Some {| secretKey := Some "sk_test_51"; publicKey := Some "pk_test_51" |} |}.

(** A live entry that holds a public key and no secret key, and no test
    entry. *)
Definition no_secret_key : StripeCredentialsData :=
  {| live := Some {| secretKey := None; publicKey := Some "pk_live_51" |};
     test := None |}.

Definition accepting (key : option string) (params : PaymentIntentCreateParams)
  : completion PaymentIntent :=
  Normal {| client_secret := Some "pi_3_secret_7" |}.

Definition failing (error : value) (key : option string) (params : PaymentIntentCreateParams)
  : completion PaymentIntent :=
  Throw error.

(** A gateway that turns down a client built without a secret key the way
    the provider does, with a structured 401. *)
Definition authenticating (key : option string) (params : PaymentIntentCreateParams)
  : completion PaymentIntent :=
  if truthy key then Normal {| client_secret := Some "pi_3_secret_7" |}
  else
    Throw
      (VObject
         [("type", VString "StripeAuthenticationError");
          ("raw",
           VObject
             [("statusCode", status_code 401);
              ("type", VString "invalid_request_error");
              ("message", VString "You did not provide an API key.")])]).

Definition card_declined : value :=
  VObject
    [("type", VString "StripeCardError");
     ("raw",
      VObject
        [("statusCode", status_code 402);
         ("type", VString "card_error");
         ("param", VString "cvc");
         ("message", VString "Your card's security code is incorrect.")])].

Definition connection_lost : value :=
  VObject [("code", VString "ECONNRESET"); ("message", VString "socket hang up")].

Definition decryption_failure : value :=
  VObject [("name", VString "Error"); ("message", VString "Unsupported state or unable to authenticate data")].

(** ** The paths of the handler *)

(** The place of a call in the pipeline of lines 40 to 72. *)
Definition stage (c : call) : nat :=
  match c with
  | CallJSONParse _ => 0
  | CallFindUnique _ => 1
  | CallDecrypt _ _ => 2
  | CallNewStripe _ => 3
  | CallPaymentIntentsCreate _ _ => 4
  end.

(** What the try block and the catch block make of the gateway's answer:
    the success response, or the reply of the catch block for what the
    gateway threw or for what building the response threw. *)
Definition settle (w : Collaborators) (b : Body) (stripeKeys : StripeCredentialsData)
    (answer : completion PaymentIntent) : completion reply :=
  match answer with
  | Normal paymentIntent =>
      match public_key_field (isPreview b) stripeKeys with
      | Normal pk =>
          Normal (success_response paymentIntent pk (minor_units (interpolated_amount w b))
                    (currency (inputOptions b)))
      | Throw e => on_error e
      end
  | Throw e => on_error e
  end.

(** [path w req (r, log)]: one constructor for each way through the
    handler, from the return of line 98 to the replies of lines 74 to 95,
    with what decides it. *)
Inductive path (w : Collaborators) (req : NextApiRequest)
  : completion reply * list call -> Prop :=
  | path_preflight :
      cors req = false ->
      path w req (Normal preflight, [])
  | path_other_method :
      cors req = true ->
      method req <> "POST" ->
      path w req (Normal methodNotAllowed, [])
  | path_body_fails (e : value) (log0 : list call) :
      method req = "POST" ->
      run (request_body w req) = (Throw e, log0) ->
      path w req (Throw e, log0)
  | path_without_id (b : Body) (log0 : list call) :
      method req = "POST" ->
      run (request_body w req) = (Normal b, log0) ->
      truthy (credentialsId (inputOptions b)) = false ->
      path w req (Normal forbidden, log0)
  | path_lookup_fails (b : Body) (log0 : list call) (id : string) (e : value) :
      method req = "POST" ->
      run (request_body w req) = (Normal b, log0) ->
      credentialsId (inputOptions b) = Some id ->
      id <> "" ->
      findUnique w id = Throw e ->
      path w req (Throw e, (log0 ++ [CallFindUnique id])%list)
  | path_not_found (b : Body) (log0 : list call) (id : string) :
      method req = "POST" ->
      run (request_body w req) = (Normal b, log0) ->
      credentialsId (inputOptions b) = Some id ->
      id <> "" ->
      findUnique w id = Normal None ->
      path w req (Normal forbidden, (log0 ++ [CallFindUnique id])%list)
  | path_decrypt_fails (b : Body) (log0 : list call) (id : string) (c : Credentials) (e : value) :
      method req = "POST" ->
      run (request_body w req) = (Normal b, log0) ->
      credentialsId (inputOptions b) = Some id ->
      id <> "" ->
      findUnique w id = Normal (Some c) ->
      decrypt w (data c) (iv c) = Throw e ->
      path w req (Throw e, resolved_log log0 id c)
  | path_decrypt_falsy (b : Body) (log0 : list call) (id : string) (c : Credentials) :
      method req = "POST" ->
      run (request_body w req) = (Normal b, log0) ->
      credentialsId (inputOptions b) = Some id ->
      id <> "" ->
      findUnique w id = Normal (Some c) ->
      decrypt w (data c) (iv c) = Normal None ->
      path w req (Normal forbidden, resolved_log log0 id c)
  | path_without_client (b : Body) (stripeKeys : StripeCredentialsData) (log : list call)
      (e : value) :
      resolves w req b stripeKeys log ->
      secret_key_argument (isPreview b) stripeKeys = Throw e ->
      path w req (Throw e, log)
  | path_bad_request (b : Body) (stripeKeys : StripeCredentialsData) (log : list call)
      (key : option string) :
      resolves w req b stripeKeys log ->
      secret_key_argument (isPreview b) stripeKeys = Normal key ->
      JS.Number (interpolated_amount w b) = JS.NaN ->
      path w req (Normal badRequest, (log ++ [CallNewStripe key])%list)
  | path_gateway (b : Body) (stripeKeys : StripeCredentialsData) (log : list call)
      (key : option string) :
      resolves w req b stripeKeys log ->
      secret_key_argument (isPreview b) stripeKeys = Normal key ->
      JS.Number (interpolated_amount w b) <> JS.NaN ->
      path w req
        (settle w b stripeKeys (paymentIntents_create w key (create_params w b)),
         gateway_log w b key log).

(** More sample data: a request whose body is raw JSON text, a request of
    another method, a credential set with a test secret key and nothing
    else, and one with a live entry and nothing else. *)
Definition raw_request (text : string) : NextApiRequest :=
  {| method := "POST"; body := RawBody text |}.

Definition other_request (verb : string) : NextApiRequest :=
  {| method := verb; body := ParsedBody (sample_body (Some "cred_1") false "10" "USD" None) |}.

Definition test_only : StripeCredentialsData :=
  {| live := None;
     test := Some {| secretKey := Some "sk_test_51"; publicKey := None |} |}.

Definition live_only : StripeCredentialsData :=
  {| live := Some {| secretKey := Some "sk_live_51"; publicKey := Some "pk_live_51" |};
     test := None |}.

(** The sample collaborators with a store that cannot be reached. *)
Definition unreachable_store : Collaborators :=
  {| JSON_parse := JSON_parse (sample_world (Normal both_keys) accepting);
     findUnique := fun _ => Throw connection_lost;
     decrypt := decrypt (sample_world (Normal both_keys) accepting);
     parseVariables := parseVariables (sample_world (Normal both_keys) accepting);
     paymentIntents_create := accepting |}.

(** A provider failure without a parameter name. *)
Definition rate_limited : value :=
  VObject
    [("type", VString "StripeRateLimitError");
     ("raw",
      VObject
        [("statusCode", status_code 429);
         ("type", VString "rate_limit_error");
         ("message", VString "Too many requests.")])].

(** * Properties *)

(** ** Strings: the trimming of [Number] goes all the way *)

Section Trimming.

Lemma strip_prefix_length (p s r : string) :
  JS.strip_prefix p s = Some r ->
  String.length s = (String.length p + String.length r)%nat.
Proof.
  revert s. induction p as [ | a p IH]; intros s; simpl.
  - intros [= ->]. reflexivity.
  - destruct s as [ | c s]; [discriminate | ].
    destruct (Ascii.eqb a c); [ | discriminate].
    intros H. simpl. rewrite (IH _ H). reflexivity.
Qed.

Lemma strip_any_shorter (ps : list string) (s r : string) :
  Forall (fun p => (0 < String.length p)%nat) ps ->
  JS.strip_any ps s = Some r ->
  (String.length r < String.length s)%nat.
Proof.
  induction 1 as [ | p ps Hp _ IH]; simpl; [discriminate | ].
  destruct (JS.strip_prefix p s) as [r' | ] eqn:E; [ | exact IH].
  intros [= ->]. apply strip_prefix_length in E. lia.
Qed.

Lemma white_space_nonempty : Forall (fun p => (0 < String.length p)%nat) JS.white_space.
Proof. unfold JS.white_space. simpl. repeat constructor. Qed.

Lemma drop_white_space_done (fuel : nat) (s : string) :
  (String.length s <= fuel)%nat ->
  JS.strip_any JS.white_space (JS.drop_white_space fuel s) = None.
Proof.
  revert s. induction fuel as [ | fuel IH]; intros s Hlen.
  - destruct s; [reflexivity | simpl in Hlen; lia].
  - change (JS.drop_white_space (S fuel) s)
      with (match JS.strip_any JS.white_space s with
            | Some r => JS.drop_white_space fuel r
            | None => s
            end).
    destruct (JS.strip_any JS.white_space s) as [r | ] eqn:E; [ | exact E].
    apply IH. apply (strip_any_shorter _ _ _ white_space_nonempty) in E. lia.
Qed.

(** What [trim_start] returns starts with no white space. *)
Lemma trim_start_done (s : string) : JS.strip_any JS.white_space (JS.trim_start s) = None.
Proof. apply drop_white_space_done. reflexivity. Qed.

End Trimming.

(** ** Numbers: rounding never makes a NaN *)

Section Rounding.

Lemma iter_pos_invariant {A : Type} (P : A -> Prop) (f : A -> A) :
  (forall x, P x -> P (f x)) -> forall p x, P x -> P (SpecFloat.iter_pos f p x).
Proof.
  intros Hf p. induction p as [p IH | p IH | ]; intros x Hx; simpl; auto.
Qed.

Lemma shr_1_nonneg (mrs : shr_record) : 0 <= shr_m mrs -> 0 <= shr_m (shr_1 mrs).
Proof.
  destruct mrs as [m r s]. simpl. intros Hm.
  destruct m as [ | [p | p | ] | p]; simpl; lia.
Qed.

Lemma shr_record_of_loc_m (m : Z) (l : location) : shr_m (shr_record_of_loc m l) = m.
Proof. destruct l as [ | [ | | ]]; reflexivity. Qed.

Lemma shr_fexp_nonneg (m e : Z) (l : location) :
  0 <= m -> 0 <= shr_m (fst (shr_fexp JS.prec JS.emax m e l)).
Proof.
  intros Hm. unfold shr_fexp, shr.
  destruct (fexp JS.prec JS.emax (Zdigits2 m + e) - e) as [ | p | p]; simpl;
    try (rewrite shr_record_of_loc_m; exact Hm).
  apply (iter_pos_invariant (fun mrs => 0 <= shr_m mrs)).
  - exact shr_1_nonneg.
  - rewrite shr_record_of_loc_m. exact Hm.
Qed.

Lemma round_nearest_even_nonneg (m : Z) (l : location) :
  0 <= m -> 0 <= round_nearest_even m l.
Proof.
  intros Hm. destruct l as [ | [ | | ]]; simpl; try lia.
  destruct (Z.even m); lia.
Qed.

Lemma binary_round_aux_not_nan (s : bool) (m e : Z) (l : location) :
  0 <= m -> binary_round_aux JS.prec JS.emax s m e l <> S754_nan.
Proof.
  intros Hm. unfold binary_round_aux.
  pose proof (shr_fexp_nonneg m e l Hm) as H1.
  destruct (shr_fexp JS.prec JS.emax m e l) as [mrs' e'] eqn:E1. simpl in H1.
  pose proof (shr_fexp_nonneg _ e' loc_Exact
                (round_nearest_even_nonneg _ (loc_of_shr_record mrs') H1)) as H2.
  destruct (shr_fexp JS.prec JS.emax _ e' loc_Exact) as [mrs'' e''] eqn:E2. simpl in H2.
  destruct (shr_m mrs'') as [ | p | p]; try discriminate; try lia.
  destruct (e'' <=? JS.emax - JS.prec); discriminate.
Qed.

Lemma of_Z_not_nan (z : Z) : JS.of_Z z <> JS.NaN.
Proof.
  unfold JS.of_Z, binary_normalize, binary_round.
  destruct z as [ | p | p]; try discriminate;
    destruct (shl_align _ _ _) as [mz ez]; apply binary_round_aux_not_nan; lia.
Qed.

Lemma times_100_not_nan (x : JS.number) :
  x <> JS.NaN -> JS.mul x (JS.of_Z 100) <> JS.NaN.
Proof.
  intros Hx.
  change (JS.of_Z 100) with (S754_finite false 7036874417766400 (-46)).
  unfold JS.mul. destruct x as [s | s | | s m e]; simpl; try discriminate.
  - contradiction.
  - apply binary_round_aux_not_nan. lia.
Qed.

Lemma Math_round_not_nan (x : JS.number) : x <> JS.NaN -> JS.Math_round x <> JS.NaN.
Proof.
  intros Hx. unfold JS.Math_round. destruct x as [s | s | | s m e]; try discriminate.
  - contradiction.
  - destruct (0 <=? e); [discriminate | ].
    destruct (JS.round_half_up s m e =? 0); [discriminate | apply of_Z_not_nan].
Qed.

Lemma isNaN_true (x : JS.number) : JS.isNaN x = true <-> x = JS.NaN.
Proof. destruct x; simpl; split; intros H; try discriminate; reflexivity. Qed.

Lemma isNaN_false (x : JS.number) : JS.isNaN x = false <-> x <> JS.NaN.
Proof.
  destruct x; simpl; split; intros H; try discriminate; try reflexivity.
  contradiction.
Qed.

(** The check of line 59 fails exactly when the text does not parse. *)
Lemma minor_units_nan (text : string) :
  JS.isNaN (minor_units text) = true <-> JS.Number text = JS.NaN.
Proof.
  unfold minor_units. split.
  - intros H. destruct (JS.Number text) eqn:E; try reflexivity; exfalso;
      apply isNaN_true in H; revert H;
      apply Math_round_not_nan, times_100_not_nan; discriminate.
  - intros ->. reflexivity.
Qed.

Lemma minor_units_number (text : string) :
  JS.Number text <> JS.NaN -> JS.isNaN (minor_units text) = false.
Proof.
  intros H. destruct (JS.isNaN (minor_units text)) eqn:E; [ | reflexivity].
  apply minor_units_nan in E. contradiction.
Qed.

(** [round_half_up] is the integer n with n - 1/2 <= x < n + 1/2 for
    x = (-1)^s * m * 2^e, e < 0: the nearest integer, the larger of the two
    on a tie. *)
Lemma round_half_up_nearest (s : bool) (m : positive) (e : Z) :
  e < 0 -> nearest_half_up (JS.round_half_up s m e) s m e.
Proof.
  intros He. unfold nearest_half_up, JS.round_half_up.
  replace (1 - e) with (Z.succ (- e)) by lia.
  rewrite Z.pow_succ_r by lia.
  assert (HD : 0 < 2 ^ (- e)) by (apply Z.pow_pos_nonneg; lia).
  set (D := 2 ^ (- e)) in *. set (a := cond_Zopp s (Z.pos m)).
  pose proof (Z.mul_div_le (2 * a + D) (2 * D) ltac:(lia)).
  pose proof (Z.mul_succ_div_gt (2 * a + D) (2 * D) ltac:(lia)).
  lia.
Qed.

(** At most one integer is nearest in that sense. *)
Lemma nearest_half_up_unique (n n' : Z) (s : bool) (m : positive) (e : Z) :
  nearest_half_up n s m e -> nearest_half_up n' s m e -> n = n'.
Proof.
  unfold nearest_half_up. intros [H1 H2] [H3 H4].
  destruct (Z.lt_ge_cases (- e) 0) as [Hneg | Hpos].
  { rewrite (Z.pow_neg_r 2 (- e) Hneg) in *. lia. }
  assert (HD : 0 < 2 ^ (- e)) by (apply Z.pow_pos_nonneg; lia).
  assert (Ha : (2 * n - 1) * 2 ^ (- e) < (2 * n' + 1) * 2 ^ (- e)) by lia.
  assert (Hb : (2 * n' - 1) * 2 ^ (- e) < (2 * n + 1) * 2 ^ (- e)) by lia.
  apply Z.mul_lt_mono_pos_r in Ha, Hb; lia.
Qed.

(** *** Mantissas stay within 53 digits, and small integers are exact *)

Lemma digits2_pos_size (p : positive) : digits2_pos p = Pos.size p.
Proof. induction p as [p IH | p IH | ]; simpl; rewrite ?IH; reflexivity. Qed.

Lemma Zdigits2_nonneg (m : Z) : 0 <= Zdigits2 m.
Proof. destruct m; simpl; lia. Qed.

(** m < 2 ^ digits m. *)
Lemma Zdigits2_gt (m : Z) : 0 <= m -> m < 2 ^ Zdigits2 m.
Proof.
  destruct m as [ | p | p]; simpl Zdigits2; try lia.
  intros _. rewrite digits2_pos_size.
  pose proof (Pos.size_gt p) as H. apply Pos2Z.pos_lt_pos in H.
  rewrite Pos2Z.inj_pow in H. exact H.
Qed.

(** digits m <= k when m < 2 ^ k. *)
Lemma Zdigits2_le (m k : Z) : 0 <= m < 2 ^ k -> 0 <= k -> Zdigits2 m <= k.
Proof.
  intros [Hm Hlt] Hk. destruct m as [ | p | p]; simpl Zdigits2; try lia.
  rewrite digits2_pos_size.
  pose proof (Pos.size_le p) as H. apply Pos2Z.pos_le_pos in H.
  rewrite Pos2Z.inj_pow in H. change (Z.pos p~0) with (2 * Z.pos p) in H.
  assert (Hpow : 2 ^ Z.pos (Pos.size p) < 2 ^ (k + 1)).
  { rewrite Z.pow_add_r by lia. change (2 ^ 1) with 2. lia. }
  apply Z.pow_lt_mono_r_iff in Hpow; lia.
Qed.

Lemma shr_1_m (mrs : shr_record) : 0 <= shr_m mrs -> shr_m (shr_1 mrs) = shr_m mrs / 2.
Proof.
  destruct mrs as [m r s]. simpl. intros Hm. rewrite <- Z.div2_div.
  destruct m as [ | [p | p | ] | p]; try reflexivity; lia.
Qed.

Lemma iter_shr_1_m (p : positive) (mrs : shr_record) :
  0 <= shr_m mrs -> shr_m (SpecFloat.iter_pos shr_1 p mrs) = shr_m mrs / 2 ^ Z.pos p.
Proof.
  revert mrs. induction p as [p IH | p IH | ]; intros mrs Hm; simpl SpecFloat.iter_pos.
  - pose proof (shr_1_nonneg mrs Hm) as H1.
    pose proof (iter_pos_invariant (fun r => 0 <= shr_m r) shr_1 shr_1_nonneg p _ H1) as H2.
    rewrite (IH _ H2), (IH _ H1), (shr_1_m _ Hm).
    assert (0 < 2 ^ Z.pos p) by (apply Z.pow_pos_nonneg; lia).
    rewrite !Z.div_div by lia. f_equal.
    replace (Z.pos p~1) with (1 + Z.pos p + Z.pos p) by lia.
    rewrite !Z.pow_add_r by lia. change (2 ^ 1) with 2. lia.
  - pose proof (iter_pos_invariant (fun r => 0 <= shr_m r) shr_1 shr_1_nonneg p _ Hm) as H2.
    rewrite (IH _ H2), (IH _ Hm).
    assert (0 < 2 ^ Z.pos p) by (apply Z.pow_pos_nonneg; lia).
    rewrite Z.div_div by lia. f_equal.
    replace (Z.pos p~0) with (Z.pos p + Z.pos p) by lia.
    rewrite Z.pow_add_r by lia. reflexivity.
  - exact (shr_1_m _ Hm).
Qed.

(** What [shr_fexp] leaves of a mantissa has at most 53 digits. *)
Lemma shr_fexp_digits (m e : Z) (l : location) :
  0 <= m -> Zdigits2 (shr_m (fst (shr_fexp JS.prec JS.emax m e l))) <= JS.prec.
Proof.
  intros Hm. unfold shr_fexp, shr.
  pose proof (Zdigits2_gt m Hm) as Hgt. pose proof (Zdigits2_nonneg m) as Hd.
  destruct (fexp JS.prec JS.emax (Zdigits2 m + e) - e) as [ | p | p] eqn:Hn; simpl fst;
    unfold fexp, JS.prec, JS.emax, emin in *.
  - rewrite shr_record_of_loc_m. lia.
  - rewrite iter_shr_1_m by (rewrite shr_record_of_loc_m; exact Hm).
    rewrite shr_record_of_loc_m.
    assert (H2 : 0 < 2 ^ Z.pos p) by (apply Z.pow_pos_nonneg; lia).
    destruct (Z.le_gt_cases (Z.pos p) (Zdigits2 m)) as [Hle | Hgt'].
    + apply Zdigits2_le; [ | lia]. split; [apply Z.div_pos; lia | ].
      apply Z.div_lt_upper_bound; [lia | ].
      eapply Z.lt_le_trans; [exact Hgt | ].
      rewrite <- Z.pow_add_r by lia. apply Z.pow_le_mono_r; lia.
    + rewrite Z.div_small; [simpl; lia | ]. split; [lia | ].
      eapply Z.lt_le_trans; [exact Hgt | ]. apply Z.pow_le_mono_r; lia.
  - rewrite shr_record_of_loc_m. lia.
Qed.

Lemma binary_round_aux_digits (s s' : bool) (m e e' : Z) (l : location) (m' : positive) :
  0 <= m ->
  binary_round_aux JS.prec JS.emax s m e l = S754_finite s' m' e' ->
  Z.pos (digits2_pos m') <= JS.prec.
Proof.
  intros Hm. unfold binary_round_aux.
  pose proof (shr_fexp_nonneg m e l Hm) as H1.
  destruct (shr_fexp JS.prec JS.emax m e l) as [mrs1 e1]. simpl in H1.
  pose proof (round_nearest_even_nonneg _ (loc_of_shr_record mrs1) H1) as H2.
  pose proof (shr_fexp_digits _ e1 loc_Exact H2) as H3.
  destruct (shr_fexp JS.prec JS.emax _ e1 loc_Exact) as [mrs2 e2]. simpl in H3.
  destruct (shr_m mrs2) as [ | p | p]; try discriminate.
  destruct (e2 <=? JS.emax - JS.prec); try discriminate.
  intros [= _ <- _]. exact H3.
Qed.

(** A finite product has a mantissa of at most 53 digits. *)
Lemma mul_digits (x y : JS.number) (s : bool) (m : positive) (e : Z) :
  JS.mul x y = S754_finite s m e -> Z.pos m < 2 ^ 53.
Proof.
  unfold JS.mul. destruct x as [sx | sx | | sx mx ex], y as [sy | sy | | sy my ey];
    simpl; try discriminate.
  intros H. apply binary_round_aux_digits in H; [ | lia].
  pose proof (Zdigits2_gt (Z.pos m) ltac:(lia)) as Hgt. simpl Zdigits2 in Hgt.
  eapply Z.lt_le_trans; [exact Hgt | ]. apply Z.pow_le_mono_r; unfold JS.prec in H; lia.
Qed.

(** A mantissa that is in place is left there. *)
Lemma binary_round_aux_canonical (s : bool) (m : positive) (e : Z) :
  fexp JS.prec JS.emax (Z.pos (digits2_pos m) + e) = e ->
  e <= JS.emax - JS.prec ->
  binary_round_aux JS.prec JS.emax s (Z.pos m) e loc_Exact = S754_finite s m e.
Proof.
  intros Hc He. unfold binary_round_aux, shr_fexp. simpl Zdigits2.
  rewrite Hc, Z.sub_diag. simpl. rewrite Hc, Z.sub_diag. simpl.
  apply Z.leb_le in He. rewrite He. reflexivity.
Qed.

Lemma digits2_pos_shift (m k : positive) :
  digits2_pos (Pos.iter xO m k) = (digits2_pos m + k)%positive.
Proof.
  induction k as [ | k IH] using Pos.peano_ind.
  - simpl. lia.
  - rewrite Pos.iter_succ. simpl. rewrite IH. lia.
Qed.

Lemma Zpos_shift (m k : positive) : Z.pos (Pos.iter xO m k) = Z.pos m * 2 ^ Z.pos k.
Proof.
  induction k as [ | k IH] using Pos.peano_ind.
  - simpl. lia.
  - rewrite Pos.iter_succ, Pos2Z.inj_xO, IH, Pos2Z.inj_succ, Z.pow_succ_r by lia. lia.
Qed.

(** The Number value of an integer below 2 ^ 53 in size is that integer. *)
Lemma of_Z_exact (n : Z) : Z.abs n < 2 ^ 53 -> JS.integer_value (JS.of_Z n) = Some n.
Proof.
  intros Hn. unfold JS.of_Z, binary_normalize. destruct n as [ | p | p]; [reflexivity | | ].
  all: unfold binary_round, shl_align.
  all: assert (Hd : Z.pos (digits2_pos p) <= 53)
         by (apply (Zdigits2_le (Z.pos p) 53); simpl in Hn; lia).
  all: assert (Hf : fexp JS.prec JS.emax (Z.pos (digits2_pos p) + 0) = Z.pos (digits2_pos p) - 53)
         by (unfold fexp, emin, JS.prec, JS.emax; lia).
  all: rewrite Hf; destruct (Z.pos (digits2_pos p) - 53 - 0) as [ | k | k] eqn:Hk; try lia.
  all: rewrite binary_round_aux_canonical;
    [ | rewrite ?digits2_pos_shift; unfold fexp, emin, JS.prec, JS.emax; lia
      | unfold JS.prec, JS.emax; lia ].
  all: unfold JS.integer_value.
  1, 3: replace (0 <=? 0) with true by reflexivity; simpl; f_equal; lia.
  all: destruct (0 <=? Z.pos (digits2_pos p) - 53) eqn:He; [apply Z.leb_le in He; lia | ].
  all: replace (- (Z.pos (digits2_pos p) - 53)) with (Z.pos k) by lia.
  all: rewrite Zpos_shift, Z.mod_mul, Z.div_mul by (apply Z.pow_nonzero; lia).
  all: reflexivity.
Qed.

End Rounding.

(** ** The handler, stage by stage *)

#[local] Unset Default Proof Using.

(** Unfolds one bind of the handler's monad. *)
Ltac step := unfold mbind, mret, M_bind, M_ret, perform, lift, try_catch; simpl.

(** A POST request is no preflight. *)
Lemma cors_POST (req : NextApiRequest) : method req = "POST" -> cors req = true.
Proof. intros H. unfold cors. rewrite H. reflexivity. Qed.

Lemma handler_preflight (w : Collaborators) (req : NextApiRequest) :
  cors req = false -> run (handler w req) = (Normal preflight, []).
Proof. intros H. unfold run, handler. rewrite H. reflexivity. Qed.

Lemma handler_other_method (w : Collaborators) (req : NextApiRequest) :
  cors req = true ->
  method req <> "POST" ->
  run (handler w req) = (Normal methodNotAllowed, []).
Proof.
  intros Hcors H. unfold run, handler. rewrite Hcors.
  apply String.eqb_neq in H. rewrite H. reflexivity.
Qed.

(** A request of another method is answered at line 38 or at line 98, and
    nothing is called for it. *)
Lemma handler_not_POST (w : Collaborators) (req : NextApiRequest) :
  method req <> "POST" ->
  snd (run (handler w req)) = []
  /\ (fst (run (handler w req)) = Normal preflight
      \/ fst (run (handler w req)) = Normal methodNotAllowed).
Proof.
  intros H. destruct (cors req) eqn:Hcors.
  - rewrite (handler_other_method w req Hcors H). auto.
  - rewrite (handler_preflight w req Hcors). auto.
Qed.

Lemma handler_body_fails (w : Collaborators) (req : NextApiRequest) (e : value)
    (log0 : list call) :
  method req = "POST" ->
  run (request_body w req) = (Throw e, log0) ->
  run (handler w req) = (Throw e, log0).
Proof.
  intros Hmethod Hbody. unfold run, handler in *. rewrite (cors_POST req Hmethod), Hmethod. step.
  rewrite Hbody. reflexivity.
Qed.

Section Post.

Variable w : Collaborators.
Variable req : NextApiRequest.
Variable b : Body.
Variable log0 : list call.

Hypothesis Hmethod : method req = "POST".
Hypothesis Hbody : run (request_body w req) = (Normal b, log0).

(** The body is read without a call or through the one call of
    [JSON.parse]. *)
Lemma request_body_log : log0 = [] \/ exists text, log0 = [CallJSONParse text].
Proof.
  revert Hbody. unfold run, request_body.
  destruct (body req) as [text | b']; step; intros [= _ <-]; eauto.
Qed.

Lemma handler_without_id :
  truthy (credentialsId (inputOptions b)) = false ->
  run (handler w req) = (Normal forbidden, log0).
Proof.
  intros Hid. unfold run, handler in *. rewrite (cors_POST req Hmethod), Hmethod. step.
  rewrite Hbody.
  destruct (credentialsId (inputOptions b)) as [id | ]; [ | reflexivity].
  simpl in Hid. apply negb_false_iff in Hid. rewrite Hid. reflexivity.
Qed.

Section Lookup.

Variable id : string.
Hypothesis Hid : credentialsId (inputOptions b) = Some id.
Hypothesis Hne : id <> "".

Lemma handler_lookup :
  run (handler w req) =
  (found ← getStripeInfo w id;
   match found with
   | None => mret forbidden
   | Some stripeKeys => create_payment_intent w b stripeKeys
   end) log0.
Proof.
  unfold run, handler in *. rewrite (cors_POST req Hmethod), Hmethod. step. rewrite Hbody, Hid.
  apply String.eqb_neq in Hne. rewrite Hne. reflexivity.
Qed.

Lemma handler_lookup_fails (e : value) :
  findUnique w id = Throw e ->
  run (handler w req) = (Throw e, log0 ++ [CallFindUnique id])%list.
Proof. intros H. rewrite handler_lookup. unfold getStripeInfo. step. rewrite H. reflexivity. Qed.

Lemma handler_not_found :
  findUnique w id = Normal None ->
  run (handler w req) = (Normal forbidden, log0 ++ [CallFindUnique id])%list.
Proof. intros H. rewrite handler_lookup. unfold getStripeInfo. step. rewrite H. reflexivity. Qed.

Section Found.

Variable c : Credentials.
Hypothesis Hrow : findUnique w id = Normal (Some c).

Lemma handler_decrypt_fails (e : value) :
  decrypt w (data c) (iv c) = Throw e ->
  run (handler w req) = (Throw e, resolved_log log0 id c).
Proof.
  intros H. rewrite handler_lookup. unfold getStripeInfo, resolved_log. step.
  rewrite Hrow. simpl. rewrite H. rewrite <- app_assoc. reflexivity.
Qed.

(** Line 49 on a record that decrypts to a falsy value. *)
Lemma handler_decrypt_falsy :
  decrypt w (data c) (iv c) = Normal None ->
  run (handler w req) = (Normal forbidden, resolved_log log0 id c).
Proof.
  intros H. rewrite handler_lookup. unfold getStripeInfo, resolved_log. step.
  rewrite Hrow. simpl. rewrite H. rewrite <- app_assoc. reflexivity.
Qed.

Lemma handler_resolved (stripeKeys : StripeCredentialsData) :
  decrypt w (data c) (iv c) = Normal (Some stripeKeys) ->
  run (handler w req) = create_payment_intent w b stripeKeys (resolved_log log0 id c).
Proof.
  intros H. rewrite handler_lookup. unfold getStripeInfo, resolved_log. step.
  rewrite Hrow. simpl. rewrite H. rewrite <- app_assoc. reflexivity.
Qed.

End Found.
End Lookup.
End Post.

(** ** From the Stripe client to the reply *)

Section Charge.

Variable w : Collaborators.
Variable b : Body.
Variable stripeKeys : StripeCredentialsData.

Lemma charge_without_client (e : value) (log : list call) :
  secret_key_argument (isPreview b) stripeKeys = Throw e ->
  create_payment_intent w b stripeKeys log = (Throw e, log).
Proof. intros H. unfold create_payment_intent. step. rewrite H. reflexivity. Qed.

Section Client.

Variable key : option string.
Hypothesis Hkey : secret_key_argument (isPreview b) stripeKeys = Normal key.

Lemma charge_bad_request (log : list call) :
  JS.Number (interpolated_amount w b) = JS.NaN ->
  create_payment_intent w b stripeKeys log = (Normal badRequest, log ++ [CallNewStripe key])%list.
Proof.
  intros H. unfold create_payment_intent. step. rewrite Hkey.
  apply minor_units_nan in H. rewrite H. reflexivity.
Qed.

Hypothesis Hnumber : JS.Number (interpolated_amount w b) <> JS.NaN.

Lemma charge_failed (error : value) (log : list call) :
  paymentIntents_create w key (create_params w b) = Throw error ->
  create_payment_intent w b stripeKeys log = (on_error error, gateway_log w b key log).
Proof.
  intros H. unfold create_payment_intent, gateway_log. step. rewrite Hkey.
  rewrite (minor_units_number _ Hnumber), H. rewrite <- app_assoc. reflexivity.
Qed.

Lemma charge_created (paymentIntent : PaymentIntent) (log : list call) :
  paymentIntents_create w key (create_params w b) = Normal paymentIntent ->
  create_payment_intent w b stripeKeys log =
  (match public_key_field (isPreview b) stripeKeys with
   | Normal pk =>
       Normal (success_response paymentIntent pk (minor_units (interpolated_amount w b))
                 (currency (inputOptions b)))
   | Throw e => on_error e
   end, gateway_log w b key log).
Proof.
  intros H. unfold create_payment_intent, gateway_log. step. rewrite Hkey.
  rewrite (minor_units_number _ Hnumber), H. rewrite <- app_assoc.
  destruct (public_key_field (isPreview b) stripeKeys); reflexivity.
Qed.

End Client.
End Charge.

(** ** Requests that get past the credential lines *)

Lemma handler_charges (w : Collaborators) (req : NextApiRequest) (b : Body)
    (stripeKeys : StripeCredentialsData) (log : list call) :
  resolves w req b stripeKeys log ->
  run (handler w req) = create_payment_intent w b stripeKeys log.
Proof.
  intros [log0 id c Hmethod Hbody Hid Hne Hrow Hkeys ->].
  exact (handler_resolved w req b log0 Hmethod Hbody id Hid Hne c Hrow stripeKeys Hkeys).
Qed.

(** Before the client is built the log holds the reading of the body and
    the resolution of the credentials, nothing of the gateway. *)
Lemma resolves_log (w : Collaborators) (req : NextApiRequest) (b : Body)
    (stripeKeys : StripeCredentialsData) (log : list call) :
  resolves w req b stripeKeys log ->
  (forall key, ~ In (CallNewStripe key) log)
  /\ (forall key params, ~ In (CallPaymentIntentsCreate key params) log).
Proof.
  intros [log0 id c Hmethod Hbody Hid Hne Hrow Hkeys ->]. unfold resolved_log.
  destruct (request_body_log w req b log0 Hbody) as [-> | [text ->]];
    split; intros; simpl; intuition discriminate.
Qed.

Lemma live_secret_key (preview : bool) (stripeKeys : StripeCredentialsData) (liveKeys : StripeKeys) :
  live stripeKeys = Some liveKeys ->
  secret_key_argument preview stripeKeys =
  Normal (if preview && truthy (test_secretKey stripeKeys) then test_secretKey stripeKeys
          else secretKey liveKeys).
Proof.
  intros H. unfold secret_key_argument, live_key. rewrite H.
  destruct (preview && truthy (test_secretKey stripeKeys)); reflexivity.
Qed.

Lemma live_public_key (preview : bool) (stripeKeys : StripeCredentialsData) (liveKeys : StripeKeys) :
  live stripeKeys = Some liveKeys ->
  public_key_field preview stripeKeys =
  Normal (if preview && truthy (test_publicKey stripeKeys) then test_publicKey stripeKeys
          else publicKey liveKeys).
Proof.
  intros H. unfold public_key_field, live_key. rewrite H.
  destruct (preview && truthy (test_publicKey stripeKeys)); reflexivity.
Qed.

(** The text parses or it does not. *)
Lemma number_or_nan (x : JS.number) : x = JS.NaN \/ x <> JS.NaN.
Proof. destruct x; (left; reflexivity) || (right; discriminate). Qed.

(** The log of a request that gets past line 49: the client is built, and
    the gateway is called when the amount is a number. *)
Lemma charge_log (w : Collaborators) (b : Body) (stripeKeys : StripeCredentialsData)
    (key : option string) (log : list call) :
  secret_key_argument (isPreview b) stripeKeys = Normal key ->
  snd (create_payment_intent w b stripeKeys log) =
  if JS.isNaN (minor_units (interpolated_amount w b)) then (log ++ [CallNewStripe key])%list
  else gateway_log w b key log.
Proof.
  intros Hkey.
  destruct (number_or_nan (JS.Number (interpolated_amount w b))) as [Hnan | Hnumber].
  - rewrite (charge_bad_request w b stripeKeys key Hkey log Hnan).
    apply minor_units_nan in Hnan. rewrite Hnan. reflexivity.
  - rewrite (minor_units_number _ Hnumber).
    destruct (paymentIntents_create w key (create_params w b)) as [paymentIntent | error] eqn:E.
    + rewrite (charge_created w b stripeKeys key Hkey Hnumber paymentIntent log E). reflexivity.
    + rewrite (charge_failed w b stripeKeys key Hkey Hnumber error log E). reflexivity.
Qed.

(** A key exists when the field holds a string that is not empty. *)
Lemma truthy_exists (k : option string) :
  truthy k = true <-> exists s, k = Some s /\ s <> "".
Proof.
  destruct k as [s | ]; simpl.
  - rewrite negb_true_iff, String.eqb_neq. split; [eauto | ].
    intros (s' & [= <-] & H). exact H.
  - split; [discriminate | intros (s & H & _); discriminate].
Qed.

(** On a request that gets past line 49 the client is built with the key
    of lines 50 to 53, and with no other. *)
Lemma resolved_client (w : Collaborators) (req : NextApiRequest) (b : Body)
    (stripeKeys : StripeCredentialsData) (log : list call) (key : option string) :
  resolves w req b stripeKeys log ->
  In (CallNewStripe key) (snd (run (handler w req))) <->
  secret_key_argument (isPreview b) stripeKeys = Normal key.
Proof.
  intros Hres. destruct (resolves_log _ _ _ _ _ Hres) as [Hnew _].
  rewrite (handler_charges _ _ _ _ _ Hres).
  destruct (secret_key_argument (isPreview b) stripeKeys) as [k | e] eqn:Hkey.
  - rewrite (charge_log w b stripeKeys k log Hkey).
    destruct (JS.isNaN _); unfold gateway_log; rewrite in_app_iff; simpl; split.
    + intros [Hin | [[= <-] | []]]; [exfalso; exact (Hnew _ Hin) | reflexivity].
    + intros [= <-]. auto.
    + intros [Hin | [[= <-] | [Hin | []]]];
        [exfalso; exact (Hnew _ Hin) | reflexivity | discriminate].
    + intros [= <-]. auto.
  - rewrite (charge_without_client w b stripeKeys e log Hkey). simpl.
    split; [intros Hin; exfalso; exact (Hnew _ Hin) | discriminate].
Qed.

(** And the gateway is called with that key, on the parameters of lines 65
    to 72, when the amount is a number. *)
Lemma resolved_gateway_call (w : Collaborators) (req : NextApiRequest) (b : Body)
    (stripeKeys : StripeCredentialsData) (log : list call) (key : option string)
    (params : PaymentIntentCreateParams) :
  resolves w req b stripeKeys log ->
  In (CallPaymentIntentsCreate key params) (snd (run (handler w req))) ->
  secret_key_argument (isPreview b) stripeKeys = Normal key
  /\ JS.Number (interpolated_amount w b) <> JS.NaN
  /\ params = create_params w b.
Proof.
  intros Hres. destruct (resolves_log _ _ _ _ _ Hres) as [_ Hcreate].
  rewrite (handler_charges _ _ _ _ _ Hres).
  destruct (secret_key_argument (isPreview b) stripeKeys) as [k | e] eqn:Hkey.
  - rewrite (charge_log w b stripeKeys k log Hkey).
    destruct (JS.isNaN (minor_units (interpolated_amount w b))) eqn:Hnan;
      unfold gateway_log; rewrite in_app_iff; simpl.
    + intros [Hin | [Hin | []]]; [exfalso; exact (Hcreate _ _ Hin) | discriminate].
    + intros [Hin | [Hin | [[= <- <-] | []]]];
        [exfalso; exact (Hcreate _ _ Hin) | discriminate | ].
      split; [reflexivity | split; [ | reflexivity]].
      intros H. apply minor_units_nan in H. congruence.
  - rewrite (charge_without_client w b stripeKeys e log Hkey). simpl.
    intros Hin. exfalso. exact (Hcreate _ _ Hin).
Qed.

(** C1. For every resolved credential set and every preview flag, a key
    existing when its field holds a string that is not empty. The Stripe
    client is built with the test secret key when the preview flag is true
    and a test secret key exists, and otherwise with the live secret key,
    present or not, of the live entry; the gateway is called with the key
    of the client. On its own test, the public key of the success response
    is the test public key when the preview flag is true and a test public
    key exists, and otherwise the live public key. *)
Theorem key_selection_by_preview (w : Collaborators) (req : NextApiRequest) (b : Body)
    (stripeKeys : StripeCredentialsData) (log : list call) :
  resolves w req b stripeKeys log ->
  let calls := snd (run (handler w req)) in
  let test_secret := test stripeKeys ≫= secretKey in
  let test_public := test stripeKeys ≫= publicKey in
  (forall s,
      isPreview b = true -> test_secret = Some s -> s <> "" ->
      forall key, In (CallNewStripe key) calls <-> key = Some s)
  /\ (forall liveKeys,
        live stripeKeys = Some liveKeys ->
        ~ (isPreview b = true /\ exists s, test_secret = Some s /\ s <> "") ->
        forall key, In (CallNewStripe key) calls <-> key = secretKey liveKeys)
  /\ (forall key params,
        In (CallPaymentIntentsCreate key params) calls -> In (CallNewStripe key) calls)
  /\ (forall key params paymentIntent,
        In (CallPaymentIntentsCreate key params) calls ->
        paymentIntents_create w key params = Normal paymentIntent ->
        (forall p,
            isPreview b = true -> test_public = Some p -> p <> "" ->
            exists label,
              fst (run (handler w req)) =
              Normal (send (status_code 200)
                        (VObject
                           [("clientSecret", string_or_null (client_secret paymentIntent));
                            ("publicKey", VString p);
                            ("amountLabel", VString label)])))
        /\ (forall liveKeys,
              live stripeKeys = Some liveKeys ->
              ~ (isPreview b = true /\ exists p, test_public = Some p /\ p <> "") ->
              exists label,
                fst (run (handler w req)) =
                Normal (send (status_code 200)
                          (VObject
                             [("clientSecret", string_or_null (client_secret paymentIntent));
                              ("publicKey", string_or_undefined (publicKey liveKeys));
                              ("amountLabel", VString label)])))).
Proof.
  intros Hres calls test_secret test_public. unfold calls, test_secret, test_public.
  split; [ | split; [ | split]].
  - intros s Hpreview Hs Hne key. rewrite (resolved_client _ _ _ _ _ key Hres).
    unfold secret_key_argument, test_secretKey. rewrite Hpreview, Hs. simpl.
    apply String.eqb_neq in Hne. rewrite Hne. simpl.
    split; [intros [= <-] | intros ->]; reflexivity.
  - intros liveKeys Hlive Hnot key. rewrite (resolved_client _ _ _ _ _ key Hres).
    unfold secret_key_argument, live_key. rewrite Hlive.
    destruct (isPreview b && truthy (test_secretKey stripeKeys)) eqn:E.
    { exfalso. apply andb_true_iff in E as [E1 E2]. apply Hnot.
      split; [exact E1 | apply truthy_exists; exact E2]. }
    split; [intros [= <-] | intros ->]; reflexivity.
  - intros key params Hin.
    apply (resolved_gateway_call _ _ _ _ _ _ _ Hres) in Hin as (Hkey & _).
    apply (resolved_client _ _ _ _ _ key Hres). exact Hkey.
  - intros key params paymentIntent Hin Hpi.
    destruct (resolved_gateway_call _ _ _ _ _ _ _ Hres Hin) as (Hkey & Hnumber & ->).
    rewrite (handler_charges _ _ _ _ _ Hres).
    rewrite (charge_created w b stripeKeys key Hkey Hnumber paymentIntent log Hpi). simpl fst.
    split.
    + intros p Hpreview Hp Hne. unfold public_key_field, test_publicKey.
      rewrite Hpreview, Hp. simpl. apply String.eqb_neq in Hne. rewrite Hne. simpl.
      eexists. reflexivity.
    + intros liveKeys Hlive Hnot. unfold public_key_field, live_key. rewrite Hlive.
      destruct (isPreview b && truthy (test_publicKey stripeKeys)) eqn:E.
      { exfalso. apply andb_true_iff in E as [E1 E2]. apply Hnot.
        split; [exact E1 | apply truthy_exists; exact E2]. }
      eexists. reflexivity.
Qed.

(** Without a number for the amount no path of the handler reaches
    [paymentIntents.create]. *)
Lemma no_gateway_call_without_number (w : Collaborators) (req : NextApiRequest) (b : Body)
    (log0 : list call) :
  method req = "POST" ->
  run (request_body w req) = (Normal b, log0) ->
  JS.Number (interpolated_amount w b) = JS.NaN ->
  forall key params, ~ In (CallPaymentIntentsCreate key params) (snd (run (handler w req))).
Proof.
  intros Hmethod Hbody Hnan key params.
  assert (Hlog0 : ~ In (CallPaymentIntentsCreate key params) log0).
  { destruct (request_body_log w req b log0 Hbody) as [-> | [text ->]]; simpl; intuition discriminate. }
  assert (Hmore : forall l,
             (forall c, In c l -> forall k p, c <> CallPaymentIntentsCreate k p) ->
             ~ In (CallPaymentIntentsCreate key params) (log0 ++ l)).
  { intros l Hl Hin. apply in_app_iff in Hin as [Hin | Hin]; [auto | ].
    exact (Hl _ Hin key params eq_refl). }
  destruct (credentialsId (inputOptions b)) as [id | ] eqn:Hid.
  2: { rewrite (handler_without_id w req b log0 Hmethod Hbody); [exact Hlog0 | ].
       rewrite Hid. reflexivity. }
  destruct (String.eqb_spec id "") as [-> | Hne].
  { rewrite (handler_without_id w req b log0 Hmethod Hbody); [exact Hlog0 | ].
    rewrite Hid. reflexivity. }
  destruct (findUnique w id) as [[c | ] | e] eqn:Hrow.
  - destruct (decrypt w (data c) (iv c)) as [[stripeKeys | ] | e] eqn:Hkeys.
    + rewrite (handler_resolved w req b log0 Hmethod Hbody id Hid Hne c Hrow stripeKeys Hkeys).
      destruct (secret_key_argument (isPreview b) stripeKeys) as [k | e] eqn:Hkey.
      * rewrite (charge_bad_request w b stripeKeys k Hkey _ Hnan). unfold resolved_log.
        simpl. rewrite <- app_assoc. apply Hmore. simpl. intuition (subst; discriminate).
      * rewrite (charge_without_client w b stripeKeys e _ Hkey). unfold resolved_log.
        apply Hmore. simpl. intuition (subst; discriminate).
    + rewrite (handler_decrypt_falsy w req b log0 Hmethod Hbody id Hid Hne c Hrow Hkeys).
      unfold resolved_log. apply Hmore. simpl. intuition (subst; discriminate).
    + rewrite (handler_decrypt_fails w req b log0 Hmethod Hbody id Hid Hne c Hrow e Hkeys).
      unfold resolved_log. apply Hmore. simpl. intuition (subst; discriminate).
  - rewrite (handler_not_found w req b log0 Hmethod Hbody id Hid Hne Hrow).
    apply Hmore. simpl. intuition (subst; discriminate).
  - rewrite (handler_lookup_fails w req b log0 Hmethod Hbody id Hid Hne e Hrow).
    apply Hmore. simpl. intuition (subst; discriminate).
Qed.

(** C2. For every POST request whose interpolated amount does not parse as
    a number ([Number] gives NaN): [paymentIntents.create] is never
    called, whatever else happens to the request; and once its credentials
    have resolved and the Stripe client is built, the handler replies
    [badRequest], which is HTTP 400. *)
Theorem non_numeric_amount_is_bad_request (w : Collaborators) (req : NextApiRequest)
    (b : Body) (log0 : list call) :
  method req = "POST" ->
  run (request_body w req) = (Normal b, log0) ->
  JS.Number (interpolated_amount w b) = JS.NaN ->
  (forall key params, ~ In (CallPaymentIntentsCreate key params) (snd (run (handler w req))))
  /\ (forall stripeKeys key log,
        resolves w req b stripeKeys log ->
        secret_key_argument (isPreview b) stripeKeys = Normal key ->
        run (handler w req) = (Normal badRequest, (log ++ [CallNewStripe key])%list))
  /\ statusCode badRequest = status_code 400.
Proof.
  intros Hmethod Hbody Hnan. repeat split.
  - exact (no_gateway_call_without_number w req b log0 Hmethod Hbody Hnan).
  - intros stripeKeys key log Hres Hkey.
    rewrite (handler_charges _ _ _ _ _ Hres).
    exact (charge_bad_request w b stripeKeys key Hkey log Hnan).
Qed.

(** [Math.round] on a finite number: a value that is no fraction stays as
    it is, and a fraction goes to the nearest integer, the larger one on a
    tie. *)
Lemma Math_round_nearest (s : bool) (m : positive) (e : Z) :
  if 0 <=? e then
    JS.Math_round (S754_finite s m e) = S754_finite s m e
    /\ JS.integer_value (S754_finite s m e) = Some (cond_Zopp s (Z.pos m * 2 ^ e))
  else
    Z.pos m < 2 ^ 53 ->
    exists n, nearest_half_up n s m e
              /\ JS.integer_value (JS.Math_round (S754_finite s m e)) = Some n.
Proof.
  unfold JS.Math_round, JS.integer_value.
  destruct (0 <=? e) eqn:He; [split; reflexivity | ].
  apply Z.leb_gt in He. intros Hm. exists (JS.round_half_up s m e).
  pose proof (round_half_up_nearest s m e He) as Hn. split; [exact Hn | ].
  destruct (JS.round_half_up s m e =? 0) eqn:Hz.
  { apply Z.eqb_eq in Hz. rewrite Hz. reflexivity. }
  apply of_Z_exact. destruct Hn as [Hlo Hhi]. revert Hlo Hhi.
  generalize (JS.round_half_up s m e). intros n Hlo Hhi.
  assert (HD : 2 <= 2 ^ (- e)).
  { change 2 with (2 ^ 1) at 1. apply Z.pow_le_mono_r; lia. }
  assert (Ha : - 2 ^ 53 < cond_Zopp s (Z.pos m) < 2 ^ 53) by (destruct s; simpl; lia).
  destruct (Z.le_gt_cases 0 n) as [Hpos | Hneg].
  - rewrite Z.abs_eq by lia.
    destruct (Z.le_gt_cases (2 ^ 53) n) as [Hbig | ]; [exfalso | lia].
    assert ((2 * 2 ^ 53 - 1) * 2 <= (2 * n - 1) * 2 ^ (- e)) by (apply Z.mul_le_mono_nonneg; lia).
    lia.
  - rewrite Z.abs_neq by lia.
    destruct (Z.le_gt_cases n (- 2 ^ 53)) as [Hbig | ]; [exfalso | lia].
    assert ((- (2 * n + 1)) * 2 ^ (- e) >= (2 * 2 ^ 53 - 1) * 2).
    { apply Z.le_ge. apply Z.mul_le_mono_nonneg; lia. }
    lia.
Qed.

(** C3, as the handler has it. For every amount expression and variable
    bindings of a request that reaches the gateway: the amount of the one
    call of [paymentIntents.create] is [Math.round (Number (text) * 100)]
    for the text that [parseVariables] makes of the expression under the
    bindings, [Number] and the product being those of binary64 numbers;
    when the product is finite, that amount is an integer, the product
    itself when it has no fraction and otherwise the integer nearest to
    the product, the larger one on a tie; and the text 19.999 gives
    2000. *)
Theorem amount_in_minor_units (w : Collaborators) (req : NextApiRequest) (b : Body)
    (stripeKeys : StripeCredentialsData) (key : option string) (log : list call) :
  resolves w req b stripeKeys log ->
  In (CallNewStripe key) (snd (run (handler w req))) ->
  let text := parseVariables w (variables b) (amount (inputOptions b)) in
  let product := JS.mul (JS.Number text) (JS.of_Z 100) in
  JS.Number text <> JS.NaN ->
  exists params,
    snd (run (handler w req)) =
      (log ++ [CallNewStripe key; CallPaymentIntentsCreate key params])%list
    /\ params_amount params = JS.Math_round product
    /\ match product with
       | S754_finite s m e =>
           if 0 <=? e then
             params_amount params = product
             /\ JS.integer_value (params_amount params) = Some (cond_Zopp s (Z.pos m * 2 ^ e))
           else
             exists n, nearest_half_up n s m e
                       /\ JS.integer_value (params_amount params) = Some n
       | _ => params_amount params = product
       end
    /\ (text = "19.999" -> params_amount params = JS.of_Z 2000).
Proof.
  intros Hres Hclient text product Hnumber.
  apply (resolved_client _ _ _ _ _ key Hres) in Hclient.
  change (JS.Number (interpolated_amount w b) <> JS.NaN) in Hnumber.
  exists (create_params w b).
  assert (Hsent : params_amount (create_params w b) = JS.Math_round product) by reflexivity.
  split; [ | split; [exact Hsent | split]].
  - rewrite (handler_charges _ _ _ _ _ Hres), (charge_log w b stripeKeys key log Hclient).
    rewrite (minor_units_number _ Hnumber). reflexivity.
  - rewrite Hsent. destruct product as [s | s | | s m e] eqn:E; try reflexivity.
    pose proof (Math_round_nearest s m e) as H.
    destruct (0 <=? e).
    + destruct H as [H1 H2]. rewrite H1. split; [reflexivity | exact H2].
    + apply H. exact (mul_digits _ _ s m e E).
  - intros Htext. rewrite Hsent. unfold product. rewrite Htext. vm_compute. reflexivity.
Qed.

(** C8. For every request that reaches the gateway: the one call of
    [paymentIntents.create] has an undefined receipt email, and not the
    empty string, when [parseVariables] makes the empty string of the
    receipt-email expression under the bindings of the request, and it has
    the interpolated text as its receipt email otherwise. *)
Theorem empty_receipt_email_is_absent (w : Collaborators) (req : NextApiRequest) (b : Body)
    (stripeKeys : StripeCredentialsData) (key : option string) (log : list call) :
  resolves w req b stripeKeys log ->
  In (CallNewStripe key) (snd (run (handler w req))) ->
  JS.Number (parseVariables w (variables b) (amount (inputOptions b))) <> JS.NaN ->
  let text := parseVariables w (variables b) (additionalInformation (inputOptions b) ≫= email) in
  exists params,
    snd (run (handler w req)) =
      (log ++ [CallNewStripe key; CallPaymentIntentsCreate key params])%list
    /\ (forall key' params',
          In (CallPaymentIntentsCreate key' params') (snd (run (handler w req))) ->
          params' = params)
    /\ (text = "" -> receipt_email params = None)
    /\ (text <> "" -> receipt_email params = Some text).
Proof.
  intros Hres Hclient Hnumber text.
  apply (resolved_client _ _ _ _ _ key Hres) in Hclient.
  change (JS.Number (interpolated_amount w b) <> JS.NaN) in Hnumber.
  exists (create_params w b). split; [ | split; [ | split]].
  - rewrite (handler_charges _ _ _ _ _ Hres), (charge_log w b stripeKeys key log Hclient).
    rewrite (minor_units_number _ Hnumber). reflexivity.
  - intros key' params' Hin.
    exact (proj2 (proj2 (resolved_gateway_call _ _ _ _ _ _ _ Hres Hin))).
  - intros Hempty. unfold create_params, receiptEmail. simpl. fold text.
    rewrite Hempty. reflexivity.
  - intros Hfull. unfold create_params, receiptEmail. simpl. fold text.
    apply String.eqb_neq in Hfull. rewrite Hfull. reflexivity.
Qed.






(** ** The catch block *)

Lemma on_error_without_raw (props : list (string * value)) :
  own_property "raw" props = None ->
  on_error (VObject props) = Normal (send (status_code 500) (VObject [("error", VObject props)])).
Proof.
  intros H. unfold on_error, HasProperty. rewrite H.
  rewrite bool_decide_eq_false_2 by (intros [v Hv]; discriminate). reflexivity.
Qed.

Lemma on_error_with_raw (props : list (string * value)) (raw : value) :
  own_property "raw" props = Some raw ->
  raw <> VUndefined ->
  raw <> VNull ->
  on_error (VObject props) =
  Normal (send (property raw "statusCode")
            (VObject
               [("error",
                 VObject
                   [("name",
                     VString (ToString (property raw "type") +:+ " "
                              +:+ ToString (property raw "param")));
                    ("message", property raw "message")])])).
Proof.
  intros H Hu Hn. unfold on_error, HasProperty. rewrite H.
  rewrite bool_decide_eq_true_2 by eauto.
  unfold mbind, completion_bind, mret, completion_ret. simpl. rewrite H. simpl.
  destruct raw; try contradiction; reflexivity.
Qed.

(** With a raw property that is undefined or null the catch block throws
    in its turn. *)
Lemma on_error_with_empty_raw (props : list (string * value)) (raw : value) :
  own_property "raw" props = Some raw ->
  raw = VUndefined \/ raw = VNull ->
  on_error (VObject props) = Throw (TypeError "Cannot read properties of undefined or null").
Proof.
  intros H Hraw. unfold on_error, HasProperty. rewrite H.
  rewrite bool_decide_eq_true_2 by eauto.
  unfold mbind, completion_bind, mret, completion_ret. simpl. rewrite H. simpl.
  destruct Hraw as [-> | ->]; reflexivity.
Qed.

Lemma on_error_of_primitive (error : value) :
  (forall props, error <> VObject props) ->
  on_error error = Throw (TypeError "Cannot use 'in' operator to search for a key in a primitive").
Proof.
  intros H. destruct error; try reflexivity. exfalso. exact (H props eq_refl).
Qed.

(** The catch block never answers through one of the helpers. *)
Lemma on_error_sends (error : value) (r : reply) :
  on_error error = Normal r -> exists status payload, r = send status payload.
Proof.
  unfold on_error. destruct (HasProperty "raw" error) as [[ | ] | e]; simpl; try discriminate.
  - destruct (Get error "raw") as [raw | e]; simpl; try discriminate.
    destruct (Get raw "statusCode"); simpl; try discriminate.
    destruct (Get raw "type"); simpl; try discriminate.
    destruct (Get raw "param"); simpl; try discriminate.
    destruct (Get raw "message"); simpl; try discriminate.
    intros [= <-]. eauto.
  - intros [= <-]. eauto.
Qed.

(** C4. For every gateway failure that carries a raw payload with a status
    code, a type tag and a parameter name: the handler replies with the
    status [raw.statusCode] and the body
    [{error: {name, message}}] whose name is the type tag, a space and the
    parameter name, and whose message is [raw.message]. *)
Theorem structured_gateway_failure (w : Collaborators) (req : NextApiRequest) (b : Body)
    (stripeKeys : StripeCredentialsData) (key : option string) (log : list call)
    (props raw_props : list (string * value)) (status : value) (type param : string) :
  resolves w req b stripeKeys log ->
  secret_key_argument (isPreview b) stripeKeys = Normal key ->
  JS.Number (interpolated_amount w b) <> JS.NaN ->
  paymentIntents_create w key (create_params w b) = Throw (VObject props) ->
  own_property "raw" props = Some (VObject raw_props) ->
  own_property "statusCode" raw_props = Some status ->
  own_property "type" raw_props = Some (VString type) ->
  own_property "param" raw_props = Some (VString param) ->
  fst (run (handler w req)) =
    Normal (send status
              (VObject
                 [("error",
                   VObject
                     [("name", VString (type +:+ " " +:+ param));
                      ("message", default VUndefined (own_property "message" raw_props))])])).
Proof.
  intros Hres Hkey Hnumber Hthrow Hraw Hstatus Htype Hparam.
  rewrite (handler_charges _ _ _ _ _ Hres).
  rewrite (charge_failed w b stripeKeys key Hkey Hnumber _ log Hthrow). simpl fst.
  rewrite (on_error_with_raw props (VObject raw_props) Hraw) by discriminate.
  unfold property. rewrite Hstatus, Htype, Hparam. reflexivity.
Qed.

(** C5, as the handler has it. For every object without a raw property
    that the gateway call throws: the handler replies with HTTP 500 and the
    body [{error: <the thrown object>}]; the body carries the thrown object
    itself, with whatever name and message it has. *)
Theorem unstructured_gateway_failure (w : Collaborators) (req : NextApiRequest) (b : Body)
    (stripeKeys : StripeCredentialsData) (key : option string) (log : list call)
    (props : list (string * value)) :
  resolves w req b stripeKeys log ->
  secret_key_argument (isPreview b) stripeKeys = Normal key ->
  JS.Number (interpolated_amount w b) <> JS.NaN ->
  paymentIntents_create w key (create_params w b) = Throw (VObject props) ->
  own_property "raw" props = None ->
  fst (run (handler w req)) =
    Normal (send (status_code 500) (VObject [("error", VObject props)]))
  /\ (fst (run (handler w req)) ≫= error_name) = Normal (property (VObject props) "name").
Proof.
  intros Hres Hkey Hnumber Hthrow Hraw.
  rewrite (handler_charges _ _ _ _ _ Hres).
  rewrite (charge_failed w b stripeKeys key Hkey Hnumber _ log Hthrow). simpl fst.
  rewrite (on_error_without_raw props Hraw). split; reflexivity.
Qed.


(** ** Credentials *)

(** Once the credentials have resolved the reply is never [forbidden]. *)
Lemma charge_never_forbidden (w : Collaborators) (b : Body) (stripeKeys : StripeCredentialsData)
    (log : list call) :
  fst (create_payment_intent w b stripeKeys log) <> Normal forbidden.
Proof.
  destruct (secret_key_argument (isPreview b) stripeKeys) as [key | e] eqn:Hkey.
  2: { rewrite (charge_without_client w b stripeKeys e log Hkey). discriminate. }
  destruct (number_or_nan (JS.Number (interpolated_amount w b))) as [Hnan | Hnumber].
  { rewrite (charge_bad_request w b stripeKeys key Hkey log Hnan). discriminate. }
  assert (Hcatch : forall error, on_error error <> Normal forbidden).
  { intros error H. apply on_error_sends in H as (status & payload & H). discriminate. }
  destruct (paymentIntents_create w key (create_params w b)) as [paymentIntent | error] eqn:E.
  - rewrite (charge_created w b stripeKeys key Hkey Hnumber paymentIntent log E). simpl.
    destruct (public_key_field (isPreview b) stripeKeys); [discriminate | apply Hcatch].
  - rewrite (charge_failed w b stripeKeys key Hkey Hnumber error log E). apply Hcatch.
Qed.

(** The status of what the catch block sends is 500, or what it read from
    the raw payload of the error. *)
Lemma on_error_status (error : value) (r : reply) :
  on_error error = Normal r ->
  statusCode r = status_code 500
  \/ exists raw, Get error "raw" = Normal raw /\ Get raw "statusCode" = Normal (statusCode r).
Proof.
  unfold on_error. destruct (HasProperty "raw" error) as [[ | ] | e]; simpl; try discriminate.
  - destruct (Get error "raw") as [raw | e]; simpl; try discriminate.
    destruct (Get raw "statusCode") as [status | e] eqn:Hstatus; simpl; try discriminate.
    destruct (Get raw "type"); simpl; try discriminate.
    destruct (Get raw "param"); simpl; try discriminate.
    destruct (Get raw "message"); simpl; try discriminate.
    intros [= <-]. right. exists raw. split; [reflexivity | exact Hstatus].
  - intros [= <-]. left. reflexivity.
Qed.

(** Reading a key throws nothing but the TypeError of a missing live
    entry. *)
Lemma public_key_field_throws (preview : bool) (stripeKeys : StripeCredentialsData) (e : value) :
  public_key_field preview stripeKeys = Throw e ->
  e = TypeError "Cannot read properties of undefined".
Proof.
  unfold public_key_field, live_key.
  destruct (preview && truthy (test_publicKey stripeKeys)); [discriminate | ].
  destruct (live stripeKeys); [discriminate | ]. intros [= <-]. reflexivity.
Qed.

Lemma status_code_injective (m n : Z) :
  Z.abs m < 2 ^ 53 -> Z.abs n < 2 ^ 53 -> status_code m = status_code n -> m = n.
Proof.
  intros Hm Hn [= H]. apply (f_equal JS.integer_value) in H.
  rewrite (of_Z_exact m Hm), (of_Z_exact n Hn) in H. congruence.
Qed.

(** Once the credentials have resolved, a reply with the status 403 is the
    answer to a gateway failure that carries that status. *)
Lemma charge_403 (w : Collaborators) (b : Body) (stripeKeys : StripeCredentialsData)
    (log : list call) (r : reply) :
  fst (create_payment_intent w b stripeKeys log) = Normal r ->
  statusCode r = status_code 403 ->
  exists key error raw,
    In (CallPaymentIntentsCreate key (create_params w b))
      (snd (create_payment_intent w b stripeKeys log))
    /\ paymentIntents_create w key (create_params w b) = Throw error
    /\ Get error "raw" = Normal raw
    /\ Get raw "statusCode" = Normal (status_code 403).
Proof.
  assert (Hother : forall n, n <> 403 -> Z.abs n < 2 ^ 53 -> status_code n <> status_code 403).
  { intros n Hn Hsmall H. apply Hn. apply (status_code_injective n 403 Hsmall); [lia | exact H]. }
  destruct (secret_key_argument (isPreview b) stripeKeys) as [key | e] eqn:Hkey.
  2: { rewrite (charge_without_client w b stripeKeys e log Hkey). discriminate. }
  destruct (number_or_nan (JS.Number (interpolated_amount w b))) as [Hnan | Hnumber].
  { rewrite (charge_bad_request w b stripeKeys key Hkey log Hnan). intros [= <-] H.
    exfalso. exact (Hother 400 ltac:(lia) ltac:(lia) H). }
  assert (Hcatch : forall error,
             on_error error = Normal r ->
             statusCode r = status_code 403 ->
             exists raw, Get error "raw" = Normal raw
                         /\ Get raw "statusCode" = Normal (status_code 403)).
  { intros error Hr Hstatus. destruct (on_error_status error r Hr) as [H | (raw & Hraw & H)].
    - exfalso. rewrite H in Hstatus. exact (Hother 500 ltac:(lia) ltac:(lia) Hstatus).
    - exists raw. rewrite <- Hstatus. split; assumption. }
  rewrite (charge_log w b stripeKeys key log Hkey), (minor_units_number _ Hnumber).
  destruct (paymentIntents_create w key (create_params w b)) as [paymentIntent | error] eqn:E.
  - rewrite (charge_created w b stripeKeys key Hkey Hnumber paymentIntent log E). simpl fst.
    destruct (public_key_field (isPreview b) stripeKeys) as [pk | e] eqn:Hpk.
    + intros [= <-] H. exfalso. exact (Hother 200 ltac:(lia) ltac:(lia) H).
    + apply public_key_field_throws in Hpk. subst e. intros Hr Hstatus.
      destruct (Hcatch _ Hr Hstatus) as (raw & Hraw & H). exfalso.
      injection Hraw as <-. discriminate.
  - rewrite (charge_failed w b stripeKeys key Hkey Hnumber error log E). simpl fst.
    intros Hr Hstatus. destruct (Hcatch _ Hr Hstatus) as (raw & Hraw & H).
    exists key, error, raw. repeat split; try assumption.
    unfold gateway_log. rewrite in_app_iff. right. right. left. reflexivity.
Qed.

(** C6, as the handler has it. A POST request is answered [forbidden], the
    403 of the handler, exactly when its credential id is missing or empty,
    or no record of that id is found, or the record decrypts to a falsy
    value; and then neither the Stripe client is built nor the gateway
    called. A credential set that resolves is not looked into for a
    usable secret key: the reply is never [forbidden]; when the set has a
    live entry the client is built with the key of lines 50 to 53, which is
    the live secret key, present or not, unless the test secret key
    applies; and a reply with the status 403 is then the answer to a
    failure of the gateway call whose raw payload carries that status. *)
Theorem forbidden_without_credential_record (w : Collaborators) (req : NextApiRequest)
    (b : Body) (log0 : list call) :
  method req = "POST" ->
  run (request_body w req) = (Normal b, log0) ->
  (fst (run (handler w req)) = Normal forbidden <->
   truthy (credentialsId (inputOptions b)) = false
   \/ (exists id, credentialsId (inputOptions b) = Some id /\ findUnique w id = Normal None)
   \/ (exists id c,
         credentialsId (inputOptions b) = Some id
         /\ findUnique w id = Normal (Some c)
         /\ decrypt w (data c) (iv c) = Normal None))
  /\ (fst (run (handler w req)) = Normal forbidden ->
      forall key, ~ In (CallNewStripe key) (snd (run (handler w req)))
                  /\ forall params,
                       ~ In (CallPaymentIntentsCreate key params) (snd (run (handler w req))))
  /\ statusCode forbidden = status_code 403
  /\ (forall stripeKeys log,
        resolves w req b stripeKeys log ->
        fst (run (handler w req)) <> Normal forbidden
        /\ (forall liveKeys,
              live stripeKeys = Some liveKeys ->
              In (CallNewStripe
                    (if isPreview b && truthy (test stripeKeys ≫= secretKey)
                     then test stripeKeys ≫= secretKey else secretKey liveKeys))
                 (snd (run (handler w req))))
        /\ (forall r,
              fst (run (handler w req)) = Normal r ->
              statusCode r = status_code 403 ->
              exists key params error raw,
                In (CallPaymentIntentsCreate key params) (snd (run (handler w req)))
                /\ paymentIntents_create w key params = Throw error
                /\ Get error "raw" = Normal raw
                /\ Get raw "statusCode" = Normal (status_code 403))).
Proof.
  intros Hmethod Hbody.
  assert (Hlog0 : forall key, ~ In (CallNewStripe key) log0
                              /\ forall params, ~ In (CallPaymentIntentsCreate key params) log0).
  { intros key.
    destruct (request_body_log w req b log0 Hbody) as [-> | [text ->]]; simpl;
      split; intros; intuition discriminate. }
  assert (Hcases :
    (truthy (credentialsId (inputOptions b)) = false
     /\ run (handler w req) = (Normal forbidden, log0))
    \/ (exists id, credentialsId (inputOptions b) = Some id /\ findUnique w id = Normal None
                   /\ run (handler w req) = (Normal forbidden, (log0 ++ [CallFindUnique id])%list))
    \/ (exists id c,
          credentialsId (inputOptions b) = Some id
          /\ findUnique w id = Normal (Some c)
          /\ decrypt w (data c) (iv c) = Normal None
          /\ run (handler w req) = (Normal forbidden, resolved_log log0 id c))
    \/ (truthy (credentialsId (inputOptions b)) = true
        /\ (forall id, credentialsId (inputOptions b) = Some id -> findUnique w id <> Normal None)
        /\ (forall id c,
              credentialsId (inputOptions b) = Some id ->
              findUnique w id = Normal (Some c) ->
              decrypt w (data c) (iv c) <> Normal None)
        /\ fst (run (handler w req)) <> Normal forbidden)).
  { destruct (credentialsId (inputOptions b)) as [id | ] eqn:Hid.
    2: { left. split; [reflexivity | ].
         apply (handler_without_id w req b log0 Hmethod Hbody). rewrite Hid. reflexivity. }
    destruct (String.eqb_spec id "") as [-> | Hne].
    { left. split; [reflexivity | ].
      apply (handler_without_id w req b log0 Hmethod Hbody). rewrite Hid. reflexivity. }
    assert (Htruthy : truthy (Some id) = true).
    { simpl. apply negb_true_iff, String.eqb_neq. exact Hne. }
    destruct (findUnique w id) as [[c | ] | e] eqn:Hrow.
    - destruct (decrypt w (data c) (iv c)) as [[stripeKeys | ] | e] eqn:Hkeys.
      + right. right. right. split; [exact Htruthy | ].
        split; [intros ? [= <-]; congruence | ].
        split; [intros ? ? [= <-] H; rewrite Hrow in H; injection H as <-; congruence | ].
        rewrite (handler_resolved w req b log0 Hmethod Hbody id Hid Hne c Hrow stripeKeys Hkeys).
        apply charge_never_forbidden.
      + right. right. left. exists id, c. repeat split; try assumption.
        exact (handler_decrypt_falsy w req b log0 Hmethod Hbody id Hid Hne c Hrow Hkeys).
      + right. right. right. split; [exact Htruthy | ].
        split; [intros ? [= <-]; congruence | ].
        split; [intros ? ? [= <-] H; rewrite Hrow in H; injection H as <-; congruence | ].
        rewrite (handler_decrypt_fails w req b log0 Hmethod Hbody id Hid Hne c Hrow e Hkeys).
        discriminate.
    - right. left. exists id. repeat split; try assumption.
      exact (handler_not_found w req b log0 Hmethod Hbody id Hid Hne Hrow).
    - right. right. right. split; [exact Htruthy | ].
      split; [intros ? [= <-]; congruence | ].
      split; [intros ? ? [= <-] H; congruence | ].
      rewrite (handler_lookup_fails w req b log0 Hmethod Hbody id Hid Hne e Hrow).
      discriminate. }
  split; [ | split; [ | split; [reflexivity | ]]].
  - split.
    + intros Hforbidden.
      destruct Hcases as [[Hid _] | [(id & Hid & Hrow & _)
                                    | [(id & c & Hid & Hrow & Hkeys & _) | (_ & _ & _ & Hnot)]]].
      * left. exact Hid.
      * right. left. eauto.
      * right. right. eauto.
      * contradiction.
    + intros Hwhy.
      destruct Hcases as [[_ Hrun] | [(id' & _ & _ & Hrun)
                                     | [(id' & c' & _ & _ & _ & Hrun)
                                       | (Htruthy & Hfound & Hdecrypted & _)]]];
        try (rewrite Hrun; reflexivity).
      exfalso. destruct Hwhy as [Hid | [(id & Hid & Hrow) | (id & c & Hid & Hrow & Hkeys)]].
      * congruence.
      * exact (Hfound id Hid Hrow).
      * exact (Hdecrypted id c Hid Hrow Hkeys).
  - intros Hforbidden key.
    assert (Hmore : forall l,
               (forall x, In x l -> (forall k, x <> CallNewStripe k)
                                    /\ forall k p, x <> CallPaymentIntentsCreate k p) ->
               ~ In (CallNewStripe key) (log0 ++ l)
               /\ forall params, ~ In (CallPaymentIntentsCreate key params) (log0 ++ l)).
    { intros l Hl. destruct (Hlog0 key) as [H1 H2].
      split; [ | intros params]; rewrite in_app_iff; intros [Hin | Hin]; eauto.
      - exact (proj1 (Hl _ Hin) key eq_refl).
      - exact (H2 params Hin).
      - exact (proj2 (Hl _ Hin) key params eq_refl). }
    destruct Hcases as [[_ Hrun] | [(id & _ & _ & Hrun)
                                   | [(id & c & _ & _ & _ & Hrun) | (_ & _ & _ & Hnot)]]];
      [ | | | contradiction]; rewrite Hrun; simpl.
    + apply Hlog0.
    + apply Hmore. simpl. intuition (subst; discriminate).
    + unfold resolved_log. apply Hmore. simpl. intuition (subst; discriminate).
  - intros stripeKeys log Hres. rewrite (handler_charges _ _ _ _ _ Hres).
    split; [apply charge_never_forbidden | split].
    + intros liveKeys Hlive.
      rewrite (charge_log w b stripeKeys _ log (live_secret_key _ _ _ Hlive)).
      destruct (JS.isNaN _); unfold gateway_log; rewrite in_app_iff; simpl; auto.
    + intros r Hr Hstatus.
      destruct (charge_403 w b stripeKeys log r Hr Hstatus) as (key & error & raw & H).
      exists key, (create_params w b), error, raw. exact H.
Qed.

(** C7. For every request whose credential record is found and whose
    decryption throws: the thrown value leaves the handler as it is, after
    the lookup and the decryption and nothing else, and no line of the
    handler answers it; so it reaches the wrapper of line 111, and the
    route answers it as an internal error, with the status 500 and with
    no reply of another class. *)
Theorem decryption_failure_is_internal_error (w : Collaborators) (req : NextApiRequest)
    (b : Body) (log0 : list call) (id : string) (c : Credentials) (e : value) :
  method req = "POST" ->
  run (request_body w req) = (Normal b, log0) ->
  credentialsId (inputOptions b) = Some id ->
  id <> "" ->
  findUnique w id = Normal (Some c) ->
  decrypt w (data c) (iv c) = Throw e ->
  run (handler w req) = (Throw e, (log0 ++ [CallFindUnique id; CallDecrypt (data c) (iv c)])%list)
  /\ default_export w req =
       (InternalError e, (log0 ++ [CallFindUnique id; CallDecrypt (data c) (iv c)])%list)
  /\ responseStatus (fst (default_export w req)) = status_code 500
  /\ forall r, fst (default_export w req) <> Replied r.
Proof.
  intros Hmethod Hbody Hid Hne Hrow Hthrow. unfold default_export, withSentry.
  rewrite (handler_decrypt_fails w req b log0 Hmethod Hbody id Hid Hne c Hrow e Hthrow).
  repeat split; discriminate.
Qed.

(** X18. For every request whose credential record is found and whose
    decryption throws: the thrown value leaves the handler as it is, after
    the lookup and the decryption and nothing else; the handler catches
    nothing here and sends no reply of its own. *)
Theorem decryption_failure_propagates (w : Collaborators) (req : NextApiRequest) (b : Body)
    (log0 : list call) (id : string) (c : Credentials) (e : value) :
  method req = "POST" ->
  run (request_body w req) = (Normal b, log0) ->
  credentialsId (inputOptions b) = Some id ->
  id <> "" ->
  findUnique w id = Normal (Some c) ->
  decrypt w (data c) (iv c) = Throw e ->
  run (handler w req) = (Throw e, (log0 ++ [CallFindUnique id; CallDecrypt (data c) (iv c)])%list)
  /\ forall r, fst (run (handler w req)) <> Normal r.
Proof.
  intros Hmethod Hbody Hid Hne Hrow Hthrow.
  rewrite (handler_decrypt_fails w req b log0 Hmethod Hbody id Hid Hne c Hrow e Hthrow).
  split; [reflexivity | discriminate].
Qed.

(** ** The theorems at sample requests *)

Lemma sample_resolves (stripeKeys : StripeCredentialsData)
    (gateway : option string -> PaymentIntentCreateParams -> completion PaymentIntent)
    (preview : bool) (amount_text currency_code : string) (receipt : option string) :
  resolves (sample_world (Normal stripeKeys) gateway)
    (sample_request (Some "cred_1") preview amount_text currency_code receipt)
    (sample_body (Some "cred_1") preview amount_text currency_code receipt)
    stripeKeys sample_log.
Proof.
  apply (resolves_intro _ _ _ _ _ [] "cred_1" sample_row); try reflexivity. discriminate.
Qed.

Lemma templated_resolves (stripeKeys : StripeCredentialsData)
    (gateway : option string -> PaymentIntentCreateParams -> completion PaymentIntent)
    (amount_text : string) (receipt : option string) (vars : list VariableBinding) :
  resolves (sample_world (Normal stripeKeys) gateway)
    (templated_request amount_text receipt vars)
    (templated_body amount_text receipt vars)
    stripeKeys sample_log.
Proof.
  apply (resolves_intro _ _ _ _ _ [] "cred_1" sample_row); try reflexivity. discriminate.
Qed.

(** In preview: with a test secret key and no test public key the client
    gets the test secret key and the response the live public key; with a
    test public key as well, the response carries the test public key. *)
Lemma key_selection_by_preview_witness :
  In (CallNewStripe (Some "sk_test_51"))
    (snd (run (handler (sample_world (Normal both_keys) accepting)
                 (sample_request (Some "cred_1") true "19.999" "USD" None))))
  /\ (exists label,
        fst (run (handler (sample_world (Normal both_keys) accepting)
                    (sample_request (Some "cred_1") true "19.999" "USD" None))) =
        Normal (send (status_code 200)
                  (VObject
                     [("clientSecret", VString "pi_3_secret_7");
                      ("publicKey", VString "pk_live_51");
                      ("amountLabel", VString label)])))
  /\ (exists label,
        fst (run (handler (sample_world (Normal all_keys) accepting)
                    (sample_request (Some "cred_1") true "19.999" "USD" None))) =
        Normal (send (status_code 200)
                  (VObject
                     [("clientSecret", VString "pi_3_secret_7");
                      ("publicKey", VString "pk_test_51");
                      ("amountLabel", VString label)]))).
Proof.
  destruct (key_selection_by_preview
              (sample_world (Normal both_keys) accepting)
              (sample_request (Some "cred_1") true "19.999" "USD" None)
              (sample_body (Some "cred_1") true "19.999" "USD" None)
              both_keys sample_log
              (sample_resolves both_keys accepting true "19.999" "USD" None))
    as (Hclient & _ & _ & Hresponse).
  destruct (key_selection_by_preview
              (sample_world (Normal all_keys) accepting)
              (sample_request (Some "cred_1") true "19.999" "USD" None)
              (sample_body (Some "cred_1") true "19.999" "USD" None)
              all_keys sample_log
              (sample_resolves all_keys accepting true "19.999" "USD" None))
    as (_ & _ & _ & Hresponse').
  split; [ | split].
  - apply (Hclient "sk_test_51" eq_refl eq_refl). { discriminate. } reflexivity.
  - destruct (Hresponse (Some "sk_test_51")
                (create_params (sample_world (Normal both_keys) accepting)
                   (sample_body (Some "cred_1") true "19.999" "USD" None))
                {| client_secret := Some "pi_3_secret_7" |}
                ltac:(vm_compute; right; right; right; left; reflexivity)
                eq_refl) as [_ Hlive].
    apply (Hlive {| secretKey := Some "sk_live_51"; publicKey := Some "pk_live_51" |} eq_refl).
    intros [_ (p & Hp & _)]. discriminate.
  - destruct (Hresponse' (Some "sk_test_51")
                (create_params (sample_world (Normal all_keys) accepting)
                   (sample_body (Some "cred_1") true "19.999" "USD" None))
                {| client_secret := Some "pi_3_secret_7" |}
                ltac:(vm_compute; right; right; right; left; reflexivity)
                eq_refl) as [Htest _].
    apply (Htest "pk_test_51" eq_refl eq_refl). discriminate.
Defined.

Lemma non_numeric_amount_is_bad_request_witness :
  run (handler (sample_world (Normal both_keys) accepting)
         (sample_request (Some "cred_1") false "ten" "USD" None)) =
  (Normal badRequest, (sample_log ++ [CallNewStripe (Some "sk_live_51")])%list)
  /\ statusCode badRequest = status_code 400.
Proof.
  destruct (non_numeric_amount_is_bad_request
              (sample_world (Normal both_keys) accepting)
              (sample_request (Some "cred_1") false "ten" "USD" None)
              (sample_body (Some "cred_1") false "ten" "USD" None)
              [] eq_refl eq_refl
              ltac:(vm_compute; reflexivity)) as (_ & Hreply & Hstatus).
  split; [ | exact Hstatus].
  exact (Hreply both_keys (Some "sk_live_51") sample_log
           (sample_resolves both_keys accepting false "ten" "USD" None) eq_refl).
Defined.

(** The amount is a template over the variable total, bound to 19.999. *)
Lemma amount_in_minor_units_witness :
  exists params,
    snd (run (handler (sample_world (Normal both_keys) accepting)
                (templated_request "{{total}}" None
                   [{| name := "total"; binding := Some "19.999" |}]))) =
    (sample_log ++
     [CallNewStripe (Some "sk_live_51");
      CallPaymentIntentsCreate (Some "sk_live_51") params])%list
    /\ params_amount params = JS.of_Z 2000.
Proof.
  destruct (amount_in_minor_units
              (sample_world (Normal both_keys) accepting)
              (templated_request "{{total}}" None
                 [{| name := "total"; binding := Some "19.999" |}])
              (templated_body "{{total}}" None
                 [{| name := "total"; binding := Some "19.999" |}])
              both_keys (Some "sk_live_51") sample_log
              (templated_resolves both_keys accepting "{{total}}" None
                 [{| name := "total"; binding := Some "19.999" |}])
              ltac:(vm_compute; right; right; left; reflexivity)
              ltac:(vm_compute; discriminate)) as (params & Hlog & _ & _ & Hsent).
  exists params. split; [exact Hlog | exact (Hsent eq_refl)].
Defined.

(** The receipt email is a template over the variable contact, which has
    no value in the first request and an address in the second. *)
Lemma empty_receipt_email_is_absent_witness :
  (exists params,
      snd (run (handler (sample_world (Normal both_keys) accepting)
                  (templated_request "10" (Some "{{contact}}")
                     [{| name := "contact"; binding := None |}]))) =
      (sample_log ++
       [CallNewStripe (Some "sk_live_51");
        CallPaymentIntentsCreate (Some "sk_live_51") params])%list
      /\ receipt_email params = None)
  /\ (exists params,
        snd (run (handler (sample_world (Normal both_keys) accepting)
                    (templated_request "10" (Some "{{contact}}")
                       [{| name := "contact"; binding := Some "ada@example.org" |}]))) =
        (sample_log ++
         [CallNewStripe (Some "sk_live_51");
          CallPaymentIntentsCreate (Some "sk_live_51") params])%list
        /\ receipt_email params = Some "ada@example.org").
Proof.
  split.
  - destruct (empty_receipt_email_is_absent
                (sample_world (Normal both_keys) accepting)
                (templated_request "10" (Some "{{contact}}")
                   [{| name := "contact"; binding := None |}])
                (templated_body "10" (Some "{{contact}}")
                   [{| name := "contact"; binding := None |}])
                both_keys (Some "sk_live_51") sample_log
                (templated_resolves both_keys accepting "10" (Some "{{contact}}")
                   [{| name := "contact"; binding := None |}])
                ltac:(vm_compute; right; right; left; reflexivity)
                ltac:(vm_compute; discriminate)) as (params & Hlog & _ & Hempty & _).
    exists params. split; [exact Hlog | exact (Hempty eq_refl)].
  - destruct (empty_receipt_email_is_absent
                (sample_world (Normal both_keys) accepting)
                (templated_request "10" (Some "{{contact}}")
                   [{| name := "contact"; binding := Some "ada@example.org" |}])
                (templated_body "10" (Some "{{contact}}")
                   [{| name := "contact"; binding := Some "ada@example.org" |}])
                both_keys (Some "sk_live_51") sample_log
                (templated_resolves both_keys accepting "10" (Some "{{contact}}")
                   [{| name := "contact"; binding := Some "ada@example.org" |}])
                ltac:(vm_compute; right; right; left; reflexivity)
                ltac:(vm_compute; discriminate)) as (params & Hlog & _ & _ & Hfull).
    exists params. split; [exact Hlog | ]. apply Hfull. discriminate.
Defined.


Lemma structured_gateway_failure_witness :
  fst (run (handler (sample_world (Normal both_keys) (failing card_declined))
              (sample_request (Some "cred_1") false "10" "USD" None))) =
  Normal (send (status_code 402)
            (VObject
               [("error",
                 VObject
                   [("name", VString "card_error cvc");
                    ("message", VString "Your card's security code is incorrect.")])])).
Proof.
  apply (structured_gateway_failure
           (sample_world (Normal both_keys) (failing card_declined))
           (sample_request (Some "cred_1") false "10" "USD" None)
           (sample_body (Some "cred_1") false "10" "USD" None)
           both_keys (Some "sk_live_51") sample_log
           [("type", VString "StripeCardError");
            ("raw",
             VObject
               [("statusCode", status_code 402);
                ("type", VString "card_error");
                ("param", VString "cvc");
                ("message", VString "Your card's security code is incorrect.")])]
           [("statusCode", status_code 402);
            ("type", VString "card_error");
            ("param", VString "cvc");
            ("message", VString "Your card's security code is incorrect.")]
           (status_code 402) "card_error" "cvc"
           (sample_resolves both_keys (failing card_declined) false "10" "USD" None)
           eq_refl
           ltac:(vm_compute; discriminate)
           eq_refl eq_refl eq_refl eq_refl eq_refl).
Defined.

Lemma unstructured_gateway_failure_witness :
  fst (run (handler (sample_world (Normal both_keys) (failing connection_lost))
              (sample_request (Some "cred_1") false "10" "USD" None))) =
  Normal (send (status_code 500) (VObject [("error", connection_lost)])).
Proof.
  apply (unstructured_gateway_failure
           (sample_world (Normal both_keys) (failing connection_lost))
           (sample_request (Some "cred_1") false "10" "USD" None)
           (sample_body (Some "cred_1") false "10" "USD" None)
           both_keys (Some "sk_live_51") sample_log
           [("code", VString "ECONNRESET"); ("message", VString "socket hang up")]
           (sample_resolves both_keys (failing connection_lost) false "10" "USD" None)
           eq_refl
           ltac:(vm_compute; discriminate)
           eq_refl eq_refl).
Defined.


(** No record, no credential id and a record that decrypts to null are
    answered [forbidden]; a credential set without a secret key is not. *)
Lemma forbidden_without_credential_record_witness :
  fst (run (handler (sample_world (Normal both_keys) accepting)
              (sample_request (Some "cred_2") false "10" "USD" None))) = Normal forbidden
  /\ fst (run (handler (sample_world (Normal both_keys) accepting)
                 (sample_request None false "10" "USD" None))) = Normal forbidden
  /\ fst (run (handler (sample_store (Normal None) accepting)
                 (sample_request (Some "cred_1") false "10" "USD" None))) = Normal forbidden
  /\ fst (run (handler (sample_world (Normal no_secret_key) authenticating)
                 (sample_request (Some "cred_1") false "10" "USD" None))) <> Normal forbidden
  /\ In (CallNewStripe None)
       (snd (run (handler (sample_world (Normal no_secret_key) authenticating)
                    (sample_request (Some "cred_1") false "10" "USD" None)))).
Proof.
  split; [ | split; [ | split]].
  - apply (forbidden_without_credential_record
             (sample_world (Normal both_keys) accepting)
             (sample_request (Some "cred_2") false "10" "USD" None)
             (sample_body (Some "cred_2") false "10" "USD" None)
             [] eq_refl eq_refl).
    right. left. exists "cred_2". split; reflexivity.
  - apply (forbidden_without_credential_record
             (sample_world (Normal both_keys) accepting)
             (sample_request None false "10" "USD" None)
             (sample_body None false "10" "USD" None)
             [] eq_refl eq_refl).
    left. reflexivity.
  - apply (forbidden_without_credential_record
             (sample_store (Normal None) accepting)
             (sample_request (Some "cred_1") false "10" "USD" None)
             (sample_body (Some "cred_1") false "10" "USD" None)
             [] eq_refl eq_refl).
    right. right. exists "cred_1", sample_row. repeat split.
  - destruct (forbidden_without_credential_record
                (sample_world (Normal no_secret_key) authenticating)
                (sample_request (Some "cred_1") false "10" "USD" None)
                (sample_body (Some "cred_1") false "10" "USD" None)
                [] eq_refl eq_refl) as (_ & _ & _ & Hresolved).
    destruct (Hresolved no_secret_key sample_log
                (sample_resolves no_secret_key authenticating false "10" "USD" None))
      as (Hnot & Hclient & _).
    split; [exact Hnot | ].
    exact (Hclient {| secretKey := None; publicKey := Some "pk_live_51" |} eq_refl).
Defined.

Lemma decryption_failure_is_internal_error_witness :
  default_export (sample_world (Throw decryption_failure) accepting)
    (sample_request (Some "cred_1") false "10" "USD" None) =
  (InternalError decryption_failure, sample_log)
  /\ responseStatus
       (fst (default_export (sample_world (Throw decryption_failure) accepting)
               (sample_request (Some "cred_1") false "10" "USD" None))) = status_code 500.
Proof.
  destruct (decryption_failure_is_internal_error
              (sample_world (Throw decryption_failure) accepting)
              (sample_request (Some "cred_1") false "10" "USD" None)
              (sample_body (Some "cred_1") false "10" "USD" None)
              [] "cred_1" sample_row decryption_failure
              eq_refl eq_refl eq_refl ltac:(discriminate) eq_refl eq_refl)
    as (_ & Hroute & Hstatus & _).
  split; [exact Hroute | exact Hstatus].
Defined.

Lemma decryption_failure_propagates_witness :
  run (handler (sample_world (Throw decryption_failure) accepting)
         (sample_request (Some "cred_1") false "10" "USD" None)) =
  (Throw decryption_failure, sample_log).
Proof.
  apply (decryption_failure_propagates
           (sample_world (Throw decryption_failure) accepting)
           (sample_request (Some "cred_1") false "10" "USD" None)
           (sample_body (Some "cred_1") false "10" "USD" None)
           [] "cred_1" sample_row decryption_failure
           eq_refl eq_refl eq_refl ltac:(discriminate) eq_refl eq_refl).
Defined.

(** ** Where the handler departs from the specification *)

(** C5 as stated fails. The gateway throws an object without a raw
    property, with a code and a message; the handler replies with HTTP 500
    and that object as the error of the body: the error has no name, and
    none that reads internal. *)
Lemma generic_failure_has_no_internal_name :
  fst (run (handler (sample_world (Normal both_keys) (failing connection_lost))
              (sample_request (Some "cred_1") false "10" "USD" None))) =
    Normal (send (status_code 500) (VObject [("error", connection_lost)]))
  /\ (fst (run (handler (sample_world (Normal both_keys) (failing connection_lost))
                  (sample_request (Some "cred_1") false "10" "USD" None))) ≫= error_name) =
     Normal VUndefined
  /\ (fst (run (handler (sample_world (Normal both_keys) (failing connection_lost))
                  (sample_request (Some "cred_1") false "10" "USD" None))) ≫= error_name) <>
     Normal (VString "internal").
Proof. vm_compute. repeat split; discriminate. Qed.

(** C6 as stated fails. The credential set has a live entry without a
    secret key and no test entry, so no secret key at all; the handler
    builds the client without a key and calls the gateway, whatever the
    gateway then does, and does not reply [forbidden]. With a gateway that
    turns the call down the way the provider does, the reply is that
    HTTP 401. *)
Lemma missing_secret_key_reaches_gateway :
  ((live no_secret_key ≫= secretKey) = None /\ test_secretKey no_secret_key = None)
  /\ run (handler (sample_world (Normal no_secret_key) authenticating)
            (sample_request (Some "cred_1") false "10" "USD" None)) =
     (Normal (send (status_code 401)
                (VObject
                   [("error",
                     VObject
                       [("name", VString "invalid_request_error undefined");
                        ("message", VString "You did not provide an API key.")])])),
      (sample_log ++
       [CallNewStripe None;
        CallPaymentIntentsCreate None
          {| params_amount := JS.of_Z 1000;
             params_currency := "USD";
             receipt_email := None;
             automatic_payment_methods_enabled := true |}])%list)
  /\ forall gateway,
       fst (run (handler (sample_world (Normal no_secret_key) gateway)
                   (sample_request (Some "cred_1") false "10" "USD" None))) <> Normal forbidden
       /\ exists params,
            In (CallPaymentIntentsCreate None params)
              (snd (run (handler (sample_world (Normal no_secret_key) gateway)
                           (sample_request (Some "cred_1") false "10" "USD" None)))).
Proof.
  split; [split; reflexivity | ]. split; [vm_compute; reflexivity | ].
  intros gateway.
  rewrite (handler_charges _ _ _ _ _
             (sample_resolves no_secret_key gateway false "10" "USD" None)).
  split; [apply charge_never_forbidden | ].
  rewrite (charge_log (sample_world (Normal no_secret_key) gateway)
             (sample_body (Some "cred_1") false "10" "USD" None)
             no_secret_key None sample_log eq_refl).
  rewrite minor_units_number by (vm_compute; discriminate).
  eexists. unfold gateway_log. rewrite in_app_iff. right. right. left. reflexivity.
Qed.

(** C3 as stated fails. The text 1.005 is a decimal tie: times 100 it is
    100.5, which the rule of the claim rounds up to 101. The handler sends
    100: the binary64 number nearest to 1.005 lies below it, and so does
    its product with 100. *)
Lemma decimal_tie_is_rounded_down :
  decimal_minor_units "1.005" = Some 101
  /\ snd (run (handler (sample_world (Normal both_keys) accepting)
                 (sample_request (Some "cred_1") false "1.005" "USD" None))) =
     (sample_log ++
      [CallNewStripe (Some "sk_live_51");
       CallPaymentIntentsCreate (Some "sk_live_51")
         {| params_amount := JS.of_Z 100;
            params_currency := "USD";
            receipt_email := None;
            automatic_payment_methods_enabled := true |}])%list
  /\ JS.integer_value (JS.of_Z 100) = Some 100
  /\ JS.of_Z 100 <> JS.of_Z 101.
Proof. vm_compute. repeat split; discriminate. Qed.



(** ** Remarks *)

(** An empty string is no key: in preview, with empty test keys, the live
    keys are used. *)
Example empty_test_keys_are_no_keys :
  secret_key_argument true
    {| live := Some {| secretKey := Some "sk_live_51"; publicKey := Some "pk_live_51" |};
       test := Some {| secretKey := Some ""; publicKey := Some "" |} |} =
    Normal (Some "sk_live_51")
  /\ public_key_field true
       {| live := Some {| secretKey := Some "sk_live_51"; publicKey := Some "pk_live_51" |};
          test := Some {| secretKey := Some ""; publicKey := Some "" |} |} =
     Normal (Some "pk_live_51").
Proof. split; reflexivity. Qed.

(** The product is one of binary64 numbers: 0.005 * 100 is 0.5 and rounds
    to 1, while 1.005 * 100 is 100.49999999999999 and rounds to 100. *)
Example products_near_a_half :
  minor_units "0.005" = JS.of_Z 1
  /\ JS.Number_toString (JS.mul (JS.Number "1.005") (JS.of_Z 100)) = "100.49999999999999"
  /\ minor_units "1.005" = JS.of_Z 100.
Proof. vm_compute. repeat split; reflexivity. Qed.

(** A preflight is answered at line 38, in whatever case its method is
    written; a request of any other method but POST is answered at
    line 98. *)
Example preflight_is_answered_by_cors :
  run (handler (sample_world (Normal both_keys) accepting) (other_request "OPTIONS")) =
    (Normal preflight, [])
  /\ run (handler (sample_world (Normal both_keys) accepting) (other_request "options")) =
     (Normal preflight, [])
  /\ run (handler (sample_world (Normal both_keys) accepting) (other_request "GET")) =
     (Normal methodNotAllowed, []).
Proof. repeat split. Qed.

(** An empty amount is the number 0, and Infinity is a number: both reach
    the gateway. *)
Example amounts_that_are_numbers :
  minor_units "" = S754_zero false
  /\ minor_units "Infinity" = JS.Infinity
  /\ JS.isNaN (minor_units "12 EUR") = true.
Proof. vm_compute. repeat split; reflexivity. Qed.

(** * Further properties of the handler *)

(** ** Every run follows one of the paths *)

Lemma request_body_cases (w : Collaborators) (req : NextApiRequest) :
  (exists b, body req = ParsedBody b /\ run (request_body w req) = (Normal b, []))
  \/ (exists text,
        body req = RawBody text
        /\ run (request_body w req) = (JSON_parse w text, [CallJSONParse text])).
Proof.
  unfold run, request_body. destruct (body req) as [text | b]; [right | left]; eauto.
Qed.

Lemma charge_settles (w : Collaborators) (b : Body) (stripeKeys : StripeCredentialsData)
    (key : option string) (log : list call) :
  secret_key_argument (isPreview b) stripeKeys = Normal key ->
  JS.Number (interpolated_amount w b) <> JS.NaN ->
  create_payment_intent w b stripeKeys log =
  (settle w b stripeKeys (paymentIntents_create w key (create_params w b)),
   gateway_log w b key log).
Proof.
  intros Hkey Hnumber. unfold settle.
  destruct (paymentIntents_create w key (create_params w b)) as [paymentIntent | error] eqn:E.
  - exact (charge_created w b stripeKeys key Hkey Hnumber paymentIntent log E).
  - exact (charge_failed w b stripeKeys key Hkey Hnumber error log E).
Qed.

Lemma handler_path (w : Collaborators) (req : NextApiRequest) :
  path w req (run (handler w req)).
Proof.
  destruct (cors req) eqn:Hcors.
  2: { rewrite (handler_preflight w req Hcors). exact (path_preflight w req Hcors). }
  destruct (String.eqb_spec (method req) "POST") as [Hmethod | Hmethod].
  2: { rewrite (handler_other_method w req Hcors Hmethod).
       exact (path_other_method w req Hcors Hmethod). }
  destruct (run (request_body w req)) as [[b | e] log0] eqn:Hbody.
  2: { rewrite (handler_body_fails w req e log0 Hmethod Hbody).
       exact (path_body_fails w req e log0 Hmethod Hbody). }
  destruct (truthy (credentialsId (inputOptions b))) eqn:Hid.
  2: { rewrite (handler_without_id w req b log0 Hmethod Hbody Hid).
       exact (path_without_id w req b log0 Hmethod Hbody Hid). }
  destruct (credentialsId (inputOptions b)) as [id | ] eqn:Hsome; [ | discriminate].
  assert (Hne : id <> "").
  { simpl in Hid. apply negb_true_iff in Hid. apply String.eqb_neq. exact Hid. }
  destruct (findUnique w id) as [[c | ] | e] eqn:Hrow.
  - destruct (decrypt w (data c) (iv c)) as [[stripeKeys | ] | e] eqn:Hkeys.
    2: { rewrite (handler_decrypt_falsy w req b log0 Hmethod Hbody id Hsome Hne c Hrow Hkeys).
         exact (path_decrypt_falsy w req b log0 id c Hmethod Hbody Hsome Hne Hrow Hkeys). }
    + assert (Hres : resolves w req b stripeKeys (resolved_log log0 id c)).
      { exact (resolves_intro w req b stripeKeys _ log0 id c
                 Hmethod Hbody Hsome Hne Hrow Hkeys eq_refl). }
      rewrite (handler_charges _ _ _ _ _ Hres).
      destruct (secret_key_argument (isPreview b) stripeKeys) as [key | e] eqn:Hkey.
      * destruct (number_or_nan (JS.Number (interpolated_amount w b))) as [Hnan | Hnumber].
        -- rewrite (charge_bad_request w b stripeKeys key Hkey _ Hnan).
           exact (path_bad_request w req b stripeKeys _ key Hres Hkey Hnan).
        -- rewrite (charge_settles w b stripeKeys key _ Hkey Hnumber).
           exact (path_gateway w req b stripeKeys _ key Hres Hkey Hnumber).
      * rewrite (charge_without_client w b stripeKeys e _ Hkey).
        exact (path_without_client w req b stripeKeys _ e Hres Hkey).
    + rewrite (handler_decrypt_fails w req b log0 Hmethod Hbody id Hsome Hne c Hrow e Hkeys).
      exact (path_decrypt_fails w req b log0 id c e Hmethod Hbody Hsome Hne Hrow Hkeys).
  - rewrite (handler_not_found w req b log0 Hmethod Hbody id Hsome Hne Hrow).
    exact (path_not_found w req b log0 id Hmethod Hbody Hsome Hne Hrow).
  - rewrite (handler_lookup_fails w req b log0 Hmethod Hbody id Hsome Hne e Hrow).
    exact (path_lookup_fails w req b log0 id e Hmethod Hbody Hsome Hne Hrow).
Qed.

Lemma settle_sends (w : Collaborators) (b : Body) (stripeKeys : StripeCredentialsData)
    (answer : completion PaymentIntent) (r : reply) :
  settle w b stripeKeys answer = Normal r -> exists status payload, r = send status payload.
Proof.
  unfold settle. destruct answer as [paymentIntent | e]; [ | apply on_error_sends].
  destruct (public_key_field (isPreview b) stripeKeys) as [pk | e]; [ | apply on_error_sends].
  intros [= <-]. unfold success_response. eauto.
Qed.

(** The log of a body that was read. *)
Lemma body_log (w : Collaborators) (req : NextApiRequest) (r : completion Body)
    (log0 : list call) :
  run (request_body w req) = (r, log0) ->
  log0 = [] \/ exists text, body req = RawBody text /\ log0 = [CallJSONParse text].
Proof.
  intros H. destruct (request_body_cases w req) as [(b & _ & Hb) | (text & Htext & Hb)];
    rewrite Hb in H; injection H as _ <-; eauto.
Qed.

(** The log of a request whose credentials have resolved. *)
Lemma resolves_shape (w : Collaborators) (req : NextApiRequest) (b : Body)
    (stripeKeys : StripeCredentialsData) (log : list call) :
  resolves w req b stripeKeys log ->
  exists log0 id c,
    (log0 = [] \/ exists text, body req = RawBody text /\ log0 = [CallJSONParse text])
    /\ run (request_body w req) = (Normal b, log0)
    /\ credentialsId (inputOptions b) = Some id
    /\ findUnique w id = Normal (Some c)
    /\ log = (log0 ++ [CallFindUnique id; CallDecrypt (data c) (iv c)])%list.
Proof.
  intros [log0 id c Hmethod Hbody Hid Hne Hrow Hkeys ->].
  exists log0, id, c. repeat split; try assumption.
  exact (body_log w req _ log0 Hbody).
Qed.

(** The calls of a POST request whose body was read: the reading of the
    body, then as many of lookup, decryption, client and gateway call as
    the request got to. *)
Lemma post_log (w : Collaborators) (req : NextApiRequest) (b : Body) (log0 : list call) :
  method req = "POST" ->
  run (request_body w req) = (Normal b, log0) ->
  (truthy (credentialsId (inputOptions b)) = false /\ snd (run (handler w req)) = log0)
  \/ exists id,
       credentialsId (inputOptions b) = Some id /\ id <> ""
       /\ (((findUnique w id = Normal None \/ exists e, findUnique w id = Throw e)
            /\ snd (run (handler w req)) = (log0 ++ [CallFindUnique id])%list)
           \/ exists c,
                findUnique w id = Normal (Some c)
                /\ (snd (run (handler w req)) =
                      (log0 ++ [CallFindUnique id; CallDecrypt (data c) (iv c)])%list
                    \/ exists key,
                         snd (run (handler w req)) =
                           (log0 ++ [CallFindUnique id; CallDecrypt (data c) (iv c);
                                     CallNewStripe key])%list
                         \/ (JS.Number (interpolated_amount w b) <> JS.NaN
                             /\ snd (run (handler w req)) =
                                  (log0 ++ [CallFindUnique id; CallDecrypt (data c) (iv c);
                                            CallNewStripe key;
                                            CallPaymentIntentsCreate key (create_params w b)])%list))).
Proof.
  intros Hmethod Hbody.
  destruct (truthy (credentialsId (inputOptions b))) eqn:Hid.
  2: { left. rewrite (handler_without_id w req b log0 Hmethod Hbody Hid). split; reflexivity. }
  destruct (credentialsId (inputOptions b)) as [id | ] eqn:Hsome; [ | discriminate].
  assert (Hne : id <> "").
  { simpl in Hid. apply negb_true_iff in Hid. apply String.eqb_neq. exact Hid. }
  right. exists id. split; [reflexivity | ]. split; [exact Hne | ].
  destruct (findUnique w id) as [[c | ] | e] eqn:Hrow.
  - right. exists c. split; [reflexivity | ].
    destruct (decrypt w (data c) (iv c)) as [[stripeKeys | ] | e] eqn:Hkeys.
    2: { left. rewrite (handler_decrypt_falsy w req b log0 Hmethod Hbody id Hsome Hne c Hrow Hkeys).
         reflexivity. }
    + rewrite (handler_resolved w req b log0 Hmethod Hbody id Hsome Hne c Hrow stripeKeys Hkeys).
      destruct (secret_key_argument (isPreview b) stripeKeys) as [key | e] eqn:Hkey.
      * right. exists key.
        rewrite (charge_log w b stripeKeys key _ Hkey). unfold gateway_log, resolved_log.
        rewrite <- !app_assoc. simpl.
        destruct (JS.isNaN (minor_units (interpolated_amount w b))) eqn:Hnan.
        -- left. reflexivity.
        -- right. split; [ | reflexivity]. intros H. apply minor_units_nan in H. congruence.
      * left. rewrite (charge_without_client w b stripeKeys e _ Hkey). reflexivity.
    + left. rewrite (handler_decrypt_fails w req b log0 Hmethod Hbody id Hsome Hne c Hrow e Hkeys).
      reflexivity.
  - left. rewrite (handler_not_found w req b log0 Hmethod Hbody id Hsome Hne Hrow).
    split; [left | ]; reflexivity.
  - left. rewrite (handler_lookup_fails w req b log0 Hmethod Hbody id Hsome Hne e Hrow).
    split; [right; eauto | reflexivity].
Qed.

(** A run makes no call, or it is that of a POST request and starts with
    the reading of the body. *)
Lemma handler_log_start (w : Collaborators) (req : NextApiRequest) :
  (method req <> "POST" /\ snd (run (handler w req)) = [])
  \/ (method req = "POST"
      /\ ((exists e log0,
             run (request_body w req) = (Throw e, log0) /\ snd (run (handler w req)) = log0)
          \/ exists b log0, run (request_body w req) = (Normal b, log0))).
Proof.
  destruct (String.eqb_spec (method req) "POST") as [Hmethod | Hmethod].
  2: { left. split; [exact Hmethod | exact (proj1 (handler_not_POST w req Hmethod))]. }
  right. split; [exact Hmethod | ].
  destruct (run (request_body w req)) as [[b | e] log0] eqn:Hbody; [right; eauto | left].
  exists e, log0. rewrite (handler_body_fails w req e log0 Hmethod Hbody). split; reflexivity.
Qed.

(** X5. The calls of every run are a run of the pipeline: the call of
    [JSON.parse], if any, comes first, and after it come the lookup, the
    decryption, the building of the client and the gateway call, in this
    order, none of them skipped before a later one and none made twice; so
    the gateway is called at most once, and never anew. *)
Theorem calls_follow_the_pipeline (w : Collaborators) (req : NextApiRequest) :
  (exists n, (n <= 4)%nat
             /\ (map stage (snd (run (handler w req))) = seq 1 n
                 \/ map stage (snd (run (handler w req))) = (0 :: seq 1 n)%nat))
  /\ List.NoDup (map stage (snd (run (handler w req)))).
Proof.
  assert (Hshape : exists n, (n <= 4)%nat
             /\ (map stage (snd (run (handler w req))) = seq 1 n
                 \/ map stage (snd (run (handler w req))) = (0 :: seq 1 n)%nat)).
  { assert (Hsplit : forall log0 rest n,
              (log0 = [] \/ exists text, body req = RawBody text /\ log0 = [CallJSONParse text]) ->
              snd (run (handler w req)) = (log0 ++ rest)%list ->
              map stage rest = seq 1 n -> (n <= 4)%nat ->
              exists n, (n <= 4)%nat
                /\ (map stage (snd (run (handler w req))) = seq 1 n
                    \/ map stage (snd (run (handler w req))) = (0 :: seq 1 n)%nat)).
    { intros log0 rest n [-> | (text & _ & ->)] -> Hrest Hn; exists n; split; try exact Hn;
        simpl; rewrite Hrest; [left | right]; reflexivity. }
    destruct (handler_log_start w req)
      as [[_ Hlog] | [Hmethod [(e & log0 & Hbody & Hlog) | (b & log0 & Hbody)]]].
    - exists 0%nat. rewrite Hlog. split; [lia | left; reflexivity].
    - apply (Hsplit log0 [] 0%nat); [exact (body_log w req _ log0 Hbody) | | reflexivity | lia].
      rewrite Hlog, app_nil_r. reflexivity.
    - pose proof (body_log w req _ log0 Hbody) as Hlog0.
      destruct (post_log w req b log0 Hmethod Hbody)
        as [[_ Hlog] | (id & _ & _ & [[_ Hlog] | (c & _ & [Hlog | (key & [Hlog | [_ Hlog]])])])].
      + apply (Hsplit log0 [] 0%nat); [exact Hlog0 | | reflexivity | lia].
        rewrite Hlog, app_nil_r. reflexivity.
      + exact (Hsplit log0 _ 1%nat Hlog0 Hlog eq_refl ltac:(lia)).
      + exact (Hsplit log0 _ 2%nat Hlog0 Hlog eq_refl ltac:(lia)).
      + exact (Hsplit log0 _ 3%nat Hlog0 Hlog eq_refl ltac:(lia)).
      + exact (Hsplit log0 _ 4%nat Hlog0 Hlog eq_refl ltac:(lia)). }
  split; [exact Hshape | ].
  destruct Hshape as (n & _ & [-> | ->]).
  - apply List.seq_NoDup.
  - change (0 :: seq 1 n)%nat with (seq 0 (S n)). apply List.seq_NoDup.
Qed.

(** The middleware calls back unless the method reads OPTIONS. *)
Lemma cors_calls_back (req : NextApiRequest) :
  cors req = true <-> JS.toUpperCase (method req) <> "OPTIONS".
Proof. unfold cors. rewrite negb_true_iff. apply String.eqb_neq. Qed.

(** X1. The handler answers [methodNotAllowed] to the requests that are
    neither POST requests nor preflights, and to no others; a preflight, a
    request whose method reads OPTIONS in upper case, is answered by the
    CORS middleware and by no line of the handler; and for a request that
    is no POST request no call is made at all: the body is not parsed and
    the credential store is not read. *)
Theorem method_not_allowed_for_other_methods (w : Collaborators) (req : NextApiRequest) :
  (fst (run (handler w req)) = Normal methodNotAllowed <->
   method req <> "POST" /\ JS.toUpperCase (method req) <> "OPTIONS")
  /\ (fst (run (handler w req)) = Normal preflight <->
      JS.toUpperCase (method req) = "OPTIONS")
  /\ (method req <> "POST" -> snd (run (handler w req)) = []).
Proof.
  assert (Hnot : forall r,
             fst (run (handler w req)) = Normal r ->
             (r = methodNotAllowed -> cors req = true /\ method req <> "POST")
             /\ (r = preflight -> cors req = false)).
  { intros r Hreply. pose proof (handler_path w req) as Hpath.
    destruct (run (handler w req)) as [r' log]. simpl in Hreply. subst r'.
    inversion Hpath; subst; split; intros Hr; try discriminate; try (split; assumption);
      try assumption;
      match goal with
      | H : settle _ _ _ _ = Normal _ |- _ =>
          apply settle_sends in H as (status & payload & H); subst; discriminate
      end. }
  split; [ | split].
  - split.
    + intros Hreply. destruct (proj1 (Hnot _ Hreply) eq_refl) as [Hcors Hmethod].
      split; [exact Hmethod | apply cors_calls_back; exact Hcors].
    + intros [Hmethod Hcors]. apply cors_calls_back in Hcors.
      rewrite (handler_other_method w req Hcors Hmethod). reflexivity.
  - split.
    + intros Hreply. pose proof (proj2 (Hnot _ Hreply) eq_refl) as Hcors.
      destruct (String.eqb_spec (JS.toUpperCase (method req)) "OPTIONS") as [H | H];
        [exact H | ].
      apply cors_calls_back in H. congruence.
    + intros Hoptions. rewrite handler_preflight; [reflexivity | ].
      unfold cors. rewrite Hoptions. reflexivity.
  - intros Hmethod. exact (proj1 (handler_not_POST w req Hmethod)).
Qed.

(** X2. [JSON.parse] is called for the POST requests whose body is a
    string, on that string, and for no others; when it throws, what it
    threw leaves the handler and nothing else has been called. *)
Theorem json_parse_for_string_bodies (w : Collaborators) (req : NextApiRequest) :
  (forall text,
      In (CallJSONParse text) (snd (run (handler w req))) <->
      method req = "POST" /\ body req = RawBody text)
  /\ (forall text e,
        method req = "POST" ->
        body req = RawBody text ->
        JSON_parse w text = Throw e ->
        run (handler w req) = (Throw e, [CallJSONParse text])).
Proof.
  split.
  - intros text. split.
    + intros Hin.
      assert (Hlog0 : forall r log0 rest,
                 run (request_body w req) = (r, log0) ->
                 snd (run (handler w req)) = (log0 ++ rest)%list ->
                 Forall (fun c => (1 <= stage c)%nat) rest ->
                 body req = RawBody text).
      { intros r log0 rest Hbody Hlog Hrest. rewrite Hlog in Hin.
        apply in_app_iff in Hin as [Hin | Hin].
        - destruct (body_log w req r log0 Hbody) as [-> | (text' & Htext & ->)]; [destruct Hin | ].
          destruct Hin as [[= ->] | []]. exact Htext.
        - rewrite List.Forall_forall in Hrest. apply Hrest in Hin. simpl in Hin. lia. }
      destruct (handler_log_start w req)
        as [[_ Hlog] | [Hmethod [(e & log0 & Hbody & Hlog) | (b & log0 & Hbody)]]].
      * rewrite Hlog in Hin. destruct Hin.
      * split; [exact Hmethod | ].
        apply (Hlog0 _ log0 [] Hbody); [rewrite Hlog, app_nil_r; reflexivity | constructor].
      * split; [exact Hmethod | ].
        destruct (post_log w req b log0 Hmethod Hbody)
          as [[_ Hlog] | (id & _ & _ & [[_ Hlog] | (c & _ & [Hlog | (key & [Hlog | [_ Hlog]])])])].
        -- apply (Hlog0 _ log0 [] Hbody); [rewrite Hlog, app_nil_r; reflexivity | constructor].
        -- apply (Hlog0 _ log0 _ Hbody Hlog). repeat constructor.
        -- apply (Hlog0 _ log0 _ Hbody Hlog). repeat constructor.
        -- apply (Hlog0 _ log0 _ Hbody Hlog). repeat constructor.
        -- apply (Hlog0 _ log0 _ Hbody Hlog). repeat constructor.
    + intros [Hmethod Htext].
      assert (Hbody : run (request_body w req) = (JSON_parse w text, [CallJSONParse text])).
      { unfold run, request_body. rewrite Htext. reflexivity. }
      destruct (JSON_parse w text) as [b | e] eqn:Hparse.
      * destruct (post_log w req b _ Hmethod Hbody)
          as [[_ Hlog] | (id & _ & _ & [[_ Hlog] | (c & _ & [Hlog | (key & [Hlog | [_ Hlog]])])])];
          rewrite Hlog; simpl; left; reflexivity.
      * rewrite (handler_body_fails w req e _ Hmethod Hbody). simpl. left. reflexivity.
  - intros text e Hmethod Htext Hparse.
    apply (handler_body_fails w req e _ Hmethod).
    unfold run, request_body. rewrite Htext, Hparse. reflexivity.
Qed.

(** X3. The credential store is read for the POST requests whose
    credential id is a non-empty string, under that id, and for no
    others: a request without a credential id, or with an empty one, is
    answered [forbidden] before any lookup. *)
Theorem store_lookup_needs_credentials_id (w : Collaborators) (req : NextApiRequest)
    (b : Body) (log0 : list call) :
  method req = "POST" ->
  run (request_body w req) = (Normal b, log0) ->
  (forall id,
      In (CallFindUnique id) (snd (run (handler w req))) <->
      credentialsId (inputOptions b) = Some id /\ id <> "")
  /\ (truthy (credentialsId (inputOptions b)) = false ->
      run (handler w req) = (Normal forbidden, log0)).
Proof.
  intros Hmethod Hbody.
  assert (Hlog0 : forall id, ~ In (CallFindUnique id) log0).
  { intros id. destruct (body_log w req _ log0 Hbody) as [-> | (text & _ & ->)]; simpl;
      intuition discriminate. }
  split; [ | exact (handler_without_id w req b log0 Hmethod Hbody)].
  intros id'. split.
  - intros Hin.
    destruct (post_log w req b log0 Hmethod Hbody)
      as [[_ Hlog] | (id & Hid & Hne & [[_ Hlog] | (c & _ & [Hlog | (key & [Hlog | [_ Hlog]])])])];
      rewrite Hlog in Hin; try (exfalso; exact (Hlog0 _ Hin));
      apply in_app_iff in Hin as [Hin | Hin]; try (exfalso; exact (Hlog0 _ Hin));
      simpl in Hin; repeat (destruct Hin as [Hin | Hin]; try discriminate);
      try contradiction; injection Hin as <-; split; assumption.
  - intros [Hid' Hne'].
    destruct (post_log w req b log0 Hmethod Hbody)
      as [[Hnone _] | (id & Hid & Hne & [[_ Hlog] | (c & _ & [Hlog | (key & [Hlog | [_ Hlog]])])])].
    + rewrite Hid' in Hnone. simpl in Hnone. apply negb_false_iff, String.eqb_eq in Hnone.
      contradiction.
    + rewrite Hlog, in_app_iff. right. left. congruence.
    + rewrite Hlog, in_app_iff. right. left. congruence.
    + rewrite Hlog, in_app_iff. right. left. congruence.
    + rewrite Hlog, in_app_iff. right. left. congruence.
Qed.

(** X4. The handler decrypts nothing but what the store holds under the
    credential id of the request: every call of [decrypt] is on the data
    and the initialization vector of the record that [findUnique] returned
    for that id, and on a request whose record is missing there is none. *)
Theorem decrypt_only_the_stored_record (w : Collaborators) (req : NextApiRequest)
    (blob vector : string) :
  In (CallDecrypt blob vector) (snd (run (handler w req))) ->
  exists b log0 id c,
    run (request_body w req) = (Normal b, log0)
    /\ credentialsId (inputOptions b) = Some id
    /\ findUnique w id = Normal (Some c)
    /\ blob = data c
    /\ vector = iv c.
Proof.
  intros Hin.
  destruct (handler_log_start w req)
    as [[_ Hlog] | [Hmethod [(e & log0 & Hbody & Hlog) | (b & log0 & Hbody)]]].
  - rewrite Hlog in Hin. destruct Hin.
  - rewrite Hlog in Hin.
    destruct (body_log w req _ log0 Hbody) as [-> | (text & _ & ->)]; simpl in Hin;
      intuition discriminate.
  - assert (Hlog0 : ~ In (CallDecrypt blob vector) log0).
    { destruct (body_log w req _ log0 Hbody) as [-> | (text & _ & ->)]; simpl;
        intuition discriminate. }
    destruct (post_log w req b log0 Hmethod Hbody)
      as [[_ Hlog] | (id & Hid & Hne & [[_ Hlog] | (c & Hrow & [Hlog | (key & [Hlog | [_ Hlog]])])])];
      rewrite Hlog in Hin; try contradiction;
      apply in_app_iff in Hin as [Hin | Hin]; try contradiction;
      simpl in Hin; repeat (destruct Hin as [Hin | Hin]; try discriminate);
      try contradiction; injection Hin as <- <-;
      exists b, log0, id, c; repeat split; assumption.
Qed.

(** X6. [badRequest] is the answer to a non-numeric amount and to nothing
    else: whenever the handler replies [badRequest], the interpolated
    amount of the request does not parse as a number; an amount that is a
    number, be it zero, negative or infinite, is never answered
    [badRequest]. *)
Theorem bad_request_only_for_non_numbers (w : Collaborators) (req : NextApiRequest) :
  fst (run (handler w req)) = Normal badRequest ->
  exists b log0,
    run (request_body w req) = (Normal b, log0)
    /\ JS.Number (interpolated_amount w b) = JS.NaN.
Proof.
  intros Hreply.
  pose proof (handler_path w req) as Hpath.
  destruct (run (handler w req)) as [r log]. simpl in Hreply. subst r.
  inversion Hpath.
  - match goal with
    | H : resolves _ _ _ _ _ |- _ =>
        apply resolves_shape in H as (l0 & i0 & c0 & _ & Hbody & _)
    end.
    eauto.
  - match goal with
    | H : settle _ _ _ _ = Normal badRequest |- _ =>
        apply settle_sends in H as (status & payload & H); discriminate
    end.
Qed.

(** The amount of a numeric text is an integer or an infinity. *)
Lemma minor_units_integral (text : string) :
  JS.Number text <> JS.NaN ->
  (exists n, JS.integer_value (minor_units text) = Some n)
  \/ (exists s, minor_units text = S754_infinity s).
Proof.
  intros Hnumber. unfold minor_units.
  pose proof (times_100_not_nan _ Hnumber) as Hproduct.
  destruct (JS.mul (JS.Number text) (JS.of_Z 100)) as [s | s | | s m e] eqn:E.
  - left. exists 0. reflexivity.
  - right. exists s. reflexivity.
  - contradiction.
  - left. pose proof (Math_round_nearest s m e) as H.
    destruct (0 <=? e).
    + destruct H as [H1 H2]. rewrite H1. eauto.
    + destruct (H (mul_digits _ _ s m e E)) as (n & _ & Hn). eauto.
Qed.

(** X7. Every call of [paymentIntents.create] comes right after the
    building of the client, with the key the client was built with; its
    parameters are those of lines 65 to 72 for the body of the request,
    with the currency code of the request as it is and automatic payment
    methods enabled. *)
Theorem gateway_call_parameters (w : Collaborators) (req : NextApiRequest)
    (key : option string) (params : PaymentIntentCreateParams) :
  In (CallPaymentIntentsCreate key params) (snd (run (handler w req))) ->
  exists b log0 log,
    run (request_body w req) = (Normal b, log0)
    /\ snd (run (handler w req)) =
         (log ++ [CallNewStripe key; CallPaymentIntentsCreate key params])%list
    /\ params = create_params w b
    /\ params_currency params = currency (inputOptions b)
    /\ automatic_payment_methods_enabled params = true
    /\ JS.Number (interpolated_amount w b) <> JS.NaN.
Proof.
  intros Hin.
  destruct (handler_log_start w req)
    as [[_ Hlog] | [Hmethod [(e & log0 & Hbody & Hlog) | (b & log0 & Hbody)]]].
  - rewrite Hlog in Hin. destruct Hin.
  - rewrite Hlog in Hin.
    destruct (body_log w req _ log0 Hbody) as [-> | (text & _ & ->)]; simpl in Hin;
      intuition discriminate.
  - assert (Hlog0 : ~ In (CallPaymentIntentsCreate key params) log0).
    { destruct (body_log w req _ log0 Hbody) as [-> | (text & _ & ->)]; simpl;
        intuition discriminate. }
    destruct (post_log w req b log0 Hmethod Hbody)
      as [[_ Hlog] | (id & Hid & Hne
                      & [[_ Hlog] | (c & Hrow & [Hlog | (key' & [Hlog | [Hnumber Hlog]])])])];
      rewrite Hlog in Hin; try contradiction;
      apply in_app_iff in Hin as [Hin | Hin]; try contradiction;
      simpl in Hin; repeat (destruct Hin as [Hin | Hin]; try discriminate);
      try contradiction.
    injection Hin as <- <-.
    exists b, log0, (log0 ++ [CallFindUnique id; CallDecrypt (data c) (iv c)])%list.
    repeat split; try assumption; try reflexivity.
    rewrite Hlog, <- app_assoc. reflexivity.
Qed.

(** X8. The handler never hands the gateway an amount that is no number or
    that has a fraction: the amount of every call of
    [paymentIntents.create] is an integer or an infinity. *)
Theorem gateway_amount_is_integral (w : Collaborators) (req : NextApiRequest)
    (key : option string) (params : PaymentIntentCreateParams) :
  In (CallPaymentIntentsCreate key params) (snd (run (handler w req))) ->
  JS.isNaN (params_amount params) = false
  /\ ((exists n, JS.integer_value (params_amount params) = Some n)
      \/ exists s, params_amount params = S754_infinity s).
Proof.
  intros Hin.
  destruct (handler_log_start w req)
    as [[_ Hlog] | [Hmethod [(e & log0 & Hbody & Hlog) | (b & log0 & Hbody)]]].
  - rewrite Hlog in Hin. destruct Hin.
  - rewrite Hlog in Hin.
    destruct (body_log w req _ log0 Hbody) as [-> | (text & _ & ->)]; simpl in Hin;
      intuition discriminate.
  - assert (Hlog0 : ~ In (CallPaymentIntentsCreate key params) log0).
    { destruct (body_log w req _ log0 Hbody) as [-> | (text & _ & ->)]; simpl;
        intuition discriminate. }
    destruct (post_log w req b log0 Hmethod Hbody)
      as [[_ Hlog] | (id & Hid & Hne
                      & [[_ Hlog] | (c & Hrow & [Hlog | (key' & [Hlog | [Hnumber Hlog]])])])];
      rewrite Hlog in Hin; try contradiction;
      apply in_app_iff in Hin as [Hin | Hin]; try contradiction;
      simpl in Hin; repeat (destruct Hin as [Hin | Hin]; try discriminate);
      try contradiction.
    injection Hin as <- <-. unfold create_params. simpl params_amount.
    split; [exact (minor_units_number _ Hnumber) | exact (minor_units_integral _ Hnumber)].
Qed.

(** X9. A credential set without a live entry, on a request that does not
    take the test secret key (no preview, or no test secret key): reading
    [stripeKeys.live.secretKey] throws a TypeError, which leaves the
    handler before the client is built, whatever the amount; no reply is
    sent and the gateway is not called. *)
Theorem missing_live_entry_throws (w : Collaborators) (req : NextApiRequest) (b : Body)
    (stripeKeys : StripeCredentialsData) (log : list call) :
  resolves w req b stripeKeys log ->
  live stripeKeys = None ->
  isPreview b && truthy (test_secretKey stripeKeys) = false ->
  run (handler w req) = (Throw (TypeError "Cannot read properties of undefined"), log)
  /\ (forall key, ~ In (CallNewStripe key) (snd (run (handler w req))))
  /\ (forall key params,
        ~ In (CallPaymentIntentsCreate key params) (snd (run (handler w req)))).
Proof.
  intros Hres Hlive Htest.
  assert (Hkey : secret_key_argument (isPreview b) stripeKeys =
                 Throw (TypeError "Cannot read properties of undefined")).
  { unfold secret_key_argument, live_key. rewrite Htest, Hlive. reflexivity. }
  rewrite (handler_charges _ _ _ _ _ Hres).
  rewrite (charge_without_client w b stripeKeys _ log Hkey).
  destruct (resolves_log _ _ _ _ _ Hres) as [Hnew Hcreate].
  repeat split; simpl; auto.
Qed.

(** X10. In preview, with a test secret key, without a test public key and
    without a live entry: the gateway is called with the test secret key,
    and when it has created the payment intent, building the response
    throws on [stripeKeys.live.publicKey]; the catch block takes the
    TypeError for a failure of the gateway, and the reply is the HTTP 500
    with that error, although the intent exists. *)
Theorem created_intent_answered_with_500 (w : Collaborators) (req : NextApiRequest) (b : Body)
    (stripeKeys : StripeCredentialsData) (log : list call) (paymentIntent : PaymentIntent) :
  resolves w req b stripeKeys log ->
  live stripeKeys = None ->
  isPreview b = true ->
  truthy (test_secretKey stripeKeys) = true ->
  truthy (test_publicKey stripeKeys) = false ->
  JS.Number (interpolated_amount w b) <> JS.NaN ->
  paymentIntents_create w (test_secretKey stripeKeys) (create_params w b) = Normal paymentIntent ->
  run (handler w req) =
  (Normal (send (status_code 500)
             (VObject [("error", TypeError "Cannot read properties of undefined")])),
   (log ++ [CallNewStripe (test_secretKey stripeKeys);
            CallPaymentIntentsCreate (test_secretKey stripeKeys) (create_params w b)])%list).
Proof.
  intros Hres Hlive Hpreview Hsecret Hpublic Hnumber Hcreated.
  assert (Hkey : secret_key_argument (isPreview b) stripeKeys =
                 Normal (test_secretKey stripeKeys)).
  { unfold secret_key_argument. rewrite Hpreview, Hsecret. reflexivity. }
  assert (Hpk : public_key_field (isPreview b) stripeKeys =
                Throw (TypeError "Cannot read properties of undefined")).
  { unfold public_key_field, live_key. rewrite Hpreview, Hpublic, Hlive. reflexivity. }
  rewrite (handler_charges _ _ _ _ _ Hres).
  rewrite (charge_settles w b stripeKeys _ log Hkey Hnumber).
  unfold settle. rewrite Hcreated, Hpk. reflexivity.
Qed.

(** X11. When the gateway call throws a value that is no object (a
    string, a number, null, undefined), the test ['raw' in error] throws
    a TypeError in the catch block, which leaves the handler: no reply is
    sent, the HTTP 500 of line 93 included. *)
Theorem thrown_primitive_is_not_answered (w : Collaborators) (req : NextApiRequest) (b : Body)
    (stripeKeys : StripeCredentialsData) (key : option string) (log : list call)
    (error : value) :
  resolves w req b stripeKeys log ->
  secret_key_argument (isPreview b) stripeKeys = Normal key ->
  JS.Number (interpolated_amount w b) <> JS.NaN ->
  paymentIntents_create w key (create_params w b) = Throw error ->
  (forall props, error <> VObject props) ->
  run (handler w req) =
  (Throw (TypeError "Cannot use 'in' operator to search for a key in a primitive"),
   (log ++ [CallNewStripe key; CallPaymentIntentsCreate key (create_params w b)])%list).
Proof.
  intros Hres Hkey Hnumber Hthrow Hprimitive.
  rewrite (handler_charges _ _ _ _ _ Hres).
  rewrite (charge_failed w b stripeKeys key Hkey Hnumber _ log Hthrow).
  rewrite (on_error_of_primitive error Hprimitive). reflexivity.
Qed.

(** X12. A structured failure whose raw payload has a type tag and no
    parameter name is answered under the name made of the type tag, a
    space and the word undefined; and when the payload has no status code
    either, the reply is sent with an undefined status. *)
Theorem missing_parameter_name_reads_undefined (w : Collaborators) (req : NextApiRequest)
    (b : Body) (stripeKeys : StripeCredentialsData) (key : option string) (log : list call)
    (props raw_props : list (string * value)) (type : string) :
  resolves w req b stripeKeys log ->
  secret_key_argument (isPreview b) stripeKeys = Normal key ->
  JS.Number (interpolated_amount w b) <> JS.NaN ->
  paymentIntents_create w key (create_params w b) = Throw (VObject props) ->
  own_property "raw" props = Some (VObject raw_props) ->
  own_property "type" raw_props = Some (VString type) ->
  own_property "param" raw_props = None ->
  fst (run (handler w req)) =
    Normal (send (default VUndefined (own_property "statusCode" raw_props))
              (VObject
                 [("error",
                   VObject
                     [("name", VString (type +:+ " undefined"));
                      ("message", default VUndefined (own_property "message" raw_props))])]))
  /\ (own_property "statusCode" raw_props = None ->
      fst (run (handler w req)) ≫= (fun r => Normal (statusCode r)) = Normal VUndefined).
Proof.
  intros Hres Hkey Hnumber Hthrow Hraw Htype Hparam.
  rewrite (handler_charges _ _ _ _ _ Hres).
  rewrite (charge_failed w b stripeKeys key Hkey Hnumber _ log Hthrow). simpl fst.
  rewrite (on_error_with_raw props (VObject raw_props) Hraw) by discriminate.
  unfold property. rewrite Htype, Hparam. split; [reflexivity | ].
  intros Hstatus. rewrite Hstatus. reflexivity.
Qed.

(** X13. When the lookup of the credential record throws, what it threw
    leaves the handler after that one call: nothing is decrypted, no client
    is built and no reply is sent. *)
Theorem lookup_failure_propagates (w : Collaborators) (req : NextApiRequest) (b : Body)
    (log0 : list call) (id : string) (e : value) :
  method req = "POST" ->
  run (request_body w req) = (Normal b, log0) ->
  credentialsId (inputOptions b) = Some id ->
  id <> "" ->
  findUnique w id = Throw e ->
  run (handler w req) = (Throw e, (log0 ++ [CallFindUnique id])%list)
  /\ (forall blob vector, ~ In (CallDecrypt blob vector) (snd (run (handler w req)))).
Proof.
  intros Hmethod Hbody Hid Hne Hthrow.
  rewrite (handler_lookup_fails w req b log0 Hmethod Hbody id Hid Hne e Hthrow).
  split; [reflexivity | ]. intros blob vector. simpl. rewrite in_app_iff.
  destruct (body_log w req _ log0 Hbody) as [-> | (text & _ & ->)]; simpl;
    intuition discriminate.
Qed.

(** The catch block sends an object with the one property error. *)
Lemma on_error_payload (error : value) (status payload : value) :
  on_error error = Normal (send status payload) ->
  exists v, payload = VObject [("error", v)].
Proof.
  unfold on_error. destruct (HasProperty "raw" error) as [[ | ] | e]; simpl; try discriminate.
  - destruct (Get error "raw") as [raw | e]; simpl; try discriminate.
    destruct (Get raw "statusCode"); simpl; try discriminate.
    destruct (Get raw "type"); simpl; try discriminate.
    destruct (Get raw "param"); simpl; try discriminate.
    destruct (Get raw "message"); simpl; try discriminate.
    intros [= _ <-]. eauto.
  - intros [= _ <-]. eauto.
Qed.

(** X15. The handler hands out no client secret but the one the gateway
    returned for this request: a reply whose body has a clientSecret
    property is sent only after a call of [paymentIntents.create] that
    returned a payment intent, and the property is the client secret of
    that intent (null when the intent has none). The replies of the catch
    block carry no client secret. *)
Theorem client_secret_comes_from_the_gateway (w : Collaborators) (req : NextApiRequest)
    (status : value) (props : list (string * value)) (secret : value) :
  fst (run (handler w req)) = Normal (send status (VObject props)) ->
  own_property "clientSecret" props = Some secret ->
  exists key params paymentIntent,
    In (CallPaymentIntentsCreate key params) (snd (run (handler w req)))
    /\ paymentIntents_create w key params = Normal paymentIntent
    /\ secret = string_or_null (client_secret paymentIntent)
    /\ status = status_code 200.
Proof.
  intros Hreply Hsecret.
  pose proof (handler_path w req) as Hpath.
  destruct (run (handler w req)) as [r log]. simpl in Hreply. subst r. simpl snd.
  inversion Hpath as [ | | | | | | | | |
                       | b stripeKeys log' key Hres Hkey Hnumber [Hsettle Hlog] ].
  assert (Hcatch : forall e, on_error e <> Normal (send status (VObject props))).
  { intros e He. apply on_error_payload in He as (v & [= ->]). discriminate. }
  unfold settle in Hsettle.
  destruct (paymentIntents_create w key (create_params w b)) as [paymentIntent | e] eqn:E;
    [ | exfalso; exact (Hcatch e Hsettle)].
  destruct (public_key_field (isPreview b) stripeKeys) as [pk | e];
    [ | exfalso; exact (Hcatch e Hsettle)].
  injection Hsettle as <- <-. simpl in Hsecret. injection Hsecret as <-.
  exists key, (create_params w b), paymentIntent. repeat split; try assumption.
  unfold gateway_log. rewrite in_app_iff. right. right. left. reflexivity.
Qed.

(** ** These properties at sample requests *)

Lemma store_lookup_needs_credentials_id_witness :
  run (handler (sample_world (Normal both_keys) accepting)
         (sample_request (Some "") false "10" "USD" None)) = (Normal forbidden, [])
  /\ In (CallFindUnique "cred_2")
       (snd (run (handler (sample_world (Normal both_keys) accepting)
                    (sample_request (Some "cred_2") false "10" "USD" None)))).
Proof.
  split.
  - apply (store_lookup_needs_credentials_id
             (sample_world (Normal both_keys) accepting)
             (sample_request (Some "") false "10" "USD" None)
             (sample_body (Some "") false "10" "USD" None)
             [] eq_refl eq_refl).
    reflexivity.
  - apply (store_lookup_needs_credentials_id
             (sample_world (Normal both_keys) accepting)
             (sample_request (Some "cred_2") false "10" "USD" None)
             (sample_body (Some "cred_2") false "10" "USD" None)
             [] eq_refl eq_refl).
    split; [reflexivity | discriminate].
Defined.

Lemma decrypt_only_the_stored_record_witness :
  exists b log0 id c,
    run (request_body (sample_world (Normal both_keys) accepting)
           (sample_request (Some "cred_1") false "10" "USD" None)) = (Normal b, log0)
    /\ credentialsId (inputOptions b) = Some id
    /\ findUnique (sample_world (Normal both_keys) accepting) id = Normal (Some c)
    /\ "c29tZSBjaXBoZXJ0ZXh0" = data c
    /\ "0f1e2d3c" = iv c.
Proof.
  apply (decrypt_only_the_stored_record
           (sample_world (Normal both_keys) accepting)
           (sample_request (Some "cred_1") false "10" "USD" None)
           "c29tZSBjaXBoZXJ0ZXh0" "0f1e2d3c").
  vm_compute. right. left. reflexivity.
Defined.

Lemma bad_request_only_for_non_numbers_witness :
  exists b log0,
    run (request_body (sample_world (Normal both_keys) accepting)
           (sample_request (Some "cred_1") false "12 EUR" "EUR" None)) = (Normal b, log0)
    /\ JS.Number (interpolated_amount (sample_world (Normal both_keys) accepting) b) = JS.NaN.
Proof.
  apply (bad_request_only_for_non_numbers
           (sample_world (Normal both_keys) accepting)
           (sample_request (Some "cred_1") false "12 EUR" "EUR" None)).
  vm_compute. reflexivity.
Defined.

(** A negative amount goes to the gateway as it is. *)
Lemma gateway_call_parameters_witness :
  exists b log0 log,
    run (request_body (sample_world (Normal both_keys) accepting)
           (sample_request (Some "cred_1") false "-5" "EUR" None)) = (Normal b, log0)
    /\ snd (run (handler (sample_world (Normal both_keys) accepting)
                   (sample_request (Some "cred_1") false "-5" "EUR" None))) =
         (log ++ [CallNewStripe (Some "sk_live_51");
                  CallPaymentIntentsCreate (Some "sk_live_51")
                    {| params_amount := JS.of_Z (-500);
                       params_currency := "EUR";
                       receipt_email := None;
                       automatic_payment_methods_enabled := true |}])%list
    /\ {| params_amount := JS.of_Z (-500);
          params_currency := "EUR";
          receipt_email := None;
          automatic_payment_methods_enabled := true |} =
       create_params (sample_world (Normal both_keys) accepting) b
    /\ "EUR" = currency (inputOptions b)
    /\ true = true
    /\ JS.Number (interpolated_amount (sample_world (Normal both_keys) accepting) b) <> JS.NaN.
Proof.
  apply (gateway_call_parameters
           (sample_world (Normal both_keys) accepting)
           (sample_request (Some "cred_1") false "-5" "EUR" None)
           (Some "sk_live_51")
           {| params_amount := JS.of_Z (-500);
              params_currency := "EUR";
              receipt_email := None;
              automatic_payment_methods_enabled := true |}).
  vm_compute. right. right. right. left. reflexivity.
Defined.

Lemma gateway_amount_is_integral_witness :
  JS.isNaN (JS.of_Z 2000) = false
  /\ ((exists n, JS.integer_value (JS.of_Z 2000) = Some n)
      \/ exists s, JS.of_Z 2000 = S754_infinity s).
Proof.
  apply (gateway_amount_is_integral
           (sample_world (Normal both_keys) accepting)
           (sample_request (Some "cred_1") false "19.999" "USD" None)
           (Some "sk_live_51")
           {| params_amount := JS.of_Z 2000;
              params_currency := "USD";
              receipt_email := None;
              automatic_payment_methods_enabled := true |}).
  vm_compute. right. right. right. left. reflexivity.
Defined.

Lemma missing_live_entry_throws_witness :
  run (handler (sample_world (Normal test_only) accepting)
         (sample_request (Some "cred_1") false "10" "USD" None)) =
  (Throw (TypeError "Cannot read properties of undefined"), sample_log).
Proof.
  apply (missing_live_entry_throws
           (sample_world (Normal test_only) accepting)
           (sample_request (Some "cred_1") false "10" "USD" None)
           (sample_body (Some "cred_1") false "10" "USD" None)
           test_only sample_log
           (sample_resolves test_only accepting false "10" "USD" None)
           eq_refl eq_refl).
Defined.

Lemma created_intent_answered_with_500_witness :
  run (handler (sample_world (Normal test_only) accepting)
         (sample_request (Some "cred_1") true "10" "USD" None)) =
  (Normal (send (status_code 500)
             (VObject [("error", TypeError "Cannot read properties of undefined")])),
   (sample_log ++
    [CallNewStripe (Some "sk_test_51");
     CallPaymentIntentsCreate (Some "sk_test_51")
       (create_params (sample_world (Normal test_only) accepting)
          (sample_body (Some "cred_1") true "10" "USD" None))])%list).
Proof.
  apply (created_intent_answered_with_500
           (sample_world (Normal test_only) accepting)
           (sample_request (Some "cred_1") true "10" "USD" None)
           (sample_body (Some "cred_1") true "10" "USD" None)
           test_only sample_log {| client_secret := Some "pi_3_secret_7" |}
           (sample_resolves test_only accepting true "10" "USD" None)
           eq_refl eq_refl eq_refl eq_refl
           ltac:(vm_compute; discriminate)
           eq_refl).
Defined.

Lemma thrown_primitive_is_not_answered_witness :
  fst (run (handler (sample_world (Normal both_keys) (failing (VString "timeout")))
              (sample_request (Some "cred_1") false "10" "USD" None))) =
  Throw (TypeError "Cannot use 'in' operator to search for a key in a primitive").
Proof.
  rewrite (thrown_primitive_is_not_answered
             (sample_world (Normal both_keys) (failing (VString "timeout")))
             (sample_request (Some "cred_1") false "10" "USD" None)
             (sample_body (Some "cred_1") false "10" "USD" None)
             both_keys (Some "sk_live_51") sample_log (VString "timeout")
             (sample_resolves both_keys (failing (VString "timeout")) false "10" "USD" None)
             eq_refl
             ltac:(vm_compute; discriminate)
             eq_refl
             ltac:(discriminate)).
  reflexivity.
Defined.

Lemma missing_parameter_name_reads_undefined_witness :
  fst (run (handler (sample_world (Normal both_keys) (failing rate_limited))
              (sample_request (Some "cred_1") false "10" "USD" None))) =
  Normal (send (status_code 429)
            (VObject
               [("error",
                 VObject
                   [("name", VString "rate_limit_error undefined");
                    ("message", VString "Too many requests.")])])).
Proof.
  apply (missing_parameter_name_reads_undefined
           (sample_world (Normal both_keys) (failing rate_limited))
           (sample_request (Some "cred_1") false "10" "USD" None)
           (sample_body (Some "cred_1") false "10" "USD" None)
           both_keys (Some "sk_live_51") sample_log
           [("type", VString "StripeRateLimitError");
            ("raw",
             VObject
               [("statusCode", status_code 429);
                ("type", VString "rate_limit_error");
                ("message", VString "Too many requests.")])]
           [("statusCode", status_code 429);
            ("type", VString "rate_limit_error");
            ("message", VString "Too many requests.")]
           "rate_limit_error"
           (sample_resolves both_keys (failing rate_limited) false "10" "USD" None)
           eq_refl
           ltac:(vm_compute; discriminate)
           eq_refl eq_refl eq_refl eq_refl).
Defined.

Lemma lookup_failure_propagates_witness :
  run (handler unreachable_store (sample_request (Some "cred_1") false "10" "USD" None)) =
  (Throw connection_lost, [CallFindUnique "cred_1"]).
Proof.
  apply (lookup_failure_propagates
           unreachable_store
           (sample_request (Some "cred_1") false "10" "USD" None)
           (sample_body (Some "cred_1") false "10" "USD" None)
           [] "cred_1" connection_lost
           eq_refl eq_refl eq_refl ltac:(discriminate) eq_refl).
Defined.

Lemma client_secret_comes_from_the_gateway_witness :
  exists key params paymentIntent,
    In (CallPaymentIntentsCreate key params)
      (snd (run (handler (sample_world (Normal both_keys) accepting)
                   (sample_request (Some "cred_1") false "10" "USD" None))))
    /\ accepting key params = Normal paymentIntent
    /\ VString "pi_3_secret_7" = string_or_null (client_secret paymentIntent)
    /\ status_code 200 = status_code 200.
Proof.
  apply (client_secret_comes_from_the_gateway
           (sample_world (Normal both_keys) accepting)
           (sample_request (Some "cred_1") false "10" "USD" None)
           (status_code 200)
           [("clientSecret", VString "pi_3_secret_7");
            ("publicKey", VString "pk_live_51");
            ("amountLabel", VString "10$")]
           (VString "pi_3_secret_7")).
  - vm_compute. reflexivity.
  - reflexivity.
Defined.

(** ** The choice of keys on its own *)

(** X17. Keys that are not selected are not read. Outside preview the
    run does not depend on the test entry of the credential set; in
    preview with a test secret key and a test public key it does not
    depend on the live entry, which may even be missing. *)
Theorem unselected_keys_are_not_read (w : Collaborators) (b : Body)
    (k1 k2 : StripeCredentialsData) (log : list call) :
  (isPreview b = false ->
   live k1 = live k2 ->
   create_payment_intent w b k1 log = create_payment_intent w b k2 log)
  /\ (isPreview b = true ->
      test k1 = test k2 ->
      truthy (test_secretKey k1) = true ->
      truthy (test_publicKey k1) = true ->
      create_payment_intent w b k1 log = create_payment_intent w b k2 log).
Proof.
  split.
  - intros Hpreview Hlive.
    assert (Hs : secret_key_argument (isPreview b) k1 = secret_key_argument (isPreview b) k2).
    { unfold secret_key_argument, live_key. rewrite Hpreview, Hlive. reflexivity. }
    assert (Hp : public_key_field (isPreview b) k1 = public_key_field (isPreview b) k2).
    { unfold public_key_field, live_key. rewrite Hpreview, Hlive. reflexivity. }
    unfold create_payment_intent. rewrite Hs, Hp. reflexivity.
  - intros Hpreview Htest Hsecret Hpublic.
    assert (Hs : secret_key_argument (isPreview b) k1 = secret_key_argument (isPreview b) k2).
    { unfold secret_key_argument, test_secretKey in *. rewrite <- Htest, Hpreview, Hsecret.
      reflexivity. }
    assert (Hp : public_key_field (isPreview b) k1 = public_key_field (isPreview b) k2).
    { unfold public_key_field, test_publicKey in *. rewrite <- Htest, Hpreview, Hpublic.
      reflexivity. }
    unfold create_payment_intent. rewrite Hs, Hp. reflexivity.
Qed.

(** In preview, with both test keys, a credential set without a live entry
    runs as one with it. *)
Lemma unselected_keys_are_not_read_witness :
  create_payment_intent (sample_world (Normal both_keys) accepting)
    (sample_body (Some "cred_1") true "10" "USD" None)
    {| live := None;
       test := Some {| secretKey := Some "sk_test_51"; publicKey := Some "pk_test_51" |} |}
    sample_log =
  create_payment_intent (sample_world (Normal both_keys) accepting)
    (sample_body (Some "cred_1") true "10" "USD" None)
    {| live := Some {| secretKey := Some "sk_live_51"; publicKey := Some "pk_live_51" |};
       test := Some {| secretKey := Some "sk_test_51"; publicKey := Some "pk_test_51" |} |}
    sample_log.
Proof.
  apply (unselected_keys_are_not_read
           (sample_world (Normal both_keys) accepting)
           (sample_body (Some "cred_1") true "10" "USD" None)
           {| live := None;
              test := Some {| secretKey := Some "sk_test_51"; publicKey := Some "pk_test_51" |} |}
           {| live := Some {| secretKey := Some "sk_live_51"; publicKey := Some "pk_live_51" |};
              test := Some {| secretKey := Some "sk_test_51"; publicKey := Some "pk_test_51" |} |}
           sample_log); reflexivity.
Defined.
